(** * paylio-go: transport core, error taxonomy and response decoder

    A shallow embedding of [errors.go], [http_client.go], the decoder
    helpers [PaginatedList.HasMore] and [unmarshalTo], the services of
    [subscription_service.go] and the constructor [NewClient], followed by
    the properties of the request/response pipeline and of its callers.

    Go values are modelled as the code has them: [int] as [Z], [string] as
    [string] (a sequence of bytes), [map[string]T] as [gmap string T] under
    [option] where the code distinguishes a nil map, [float64] as the
    binary64 type [float], and the dynamic type [any] of decoded JSON as the
    inductive [json].  Calls into the Go standard library ([encoding/json],
    [net/url], [net/http], [io]) are the fields of the class [GoLib], over
    which every property is stated. *)

From Stdlib Require Import ZArith String Ascii Floats Lia DecimalString.
From stdpp Require Import base option gmap strings list fin_maps.

#[local] Set Warnings "-register-all".
#[local] Open Scope string_scope.
#[local] Open Scope Z_scope.

(** ** Go values *)

(** What [encoding/json] stores in an [any]: nil, bool, float64, string,
    [[]any] and [map[string]any]. *)
Inductive json : Type :=
| JNull
| JBool (b : bool)
| JNumber (f : float)
| JString (s : string)
| JArray (l : list json)
| JObject (m : gmap string json).

(** A Go call returning [(value, error)] with exactly one of them set. *)
Inductive result (A E : Type) : Type :=
| Ok (a : A)
| Err (e : E).
Arguments Ok {A E} a.
Arguments Err {A E} e.

(** ** errors.go *)

Module ErrorParams.
Record t : Type := mk {
  Message : string;
  HTTPStatus : Z;
  HTTPBody : string;
  JSONBody : option (gmap string json);
  Headers : option (gmap string string);
  Code : string
}.

(** The composite literal [ErrorParams{Message: m}]: every other field
    keeps its zero value. *)
Definition of_message (m : string) : t :=
  {| Message := m; HTTPStatus := 0; HTTPBody := ""; JSONBody := None;
     Headers := None; Code := "" |}.
End ErrorParams.

Record PaylioError : Type := {
  Message : string;
  HTTPStatus : Z;
  HTTPBody : string;
  JSONBody : option (gmap string json);
  Headers : option (gmap string string);
  Code : string
}.

Definition newPaylioError (p : ErrorParams.t) : PaylioError :=
  {| Message := ErrorParams.Message p;
     HTTPStatus := ErrorParams.HTTPStatus p;
     HTTPBody := ErrorParams.HTTPBody p;
     JSONBody := ErrorParams.JSONBody p;
     Headers := ErrorParams.Headers p;
     Code := ErrorParams.Code p |}.

(** The six error types, each a struct embedding [*PaylioError]; an [error]
    returned by the SDK is one of them. *)
Inductive SDKError : Type :=
| APIError (e : PaylioError)
| AuthenticationError (e : PaylioError)
| InvalidRequestError (e : PaylioError)
| NotFoundError (e : PaylioError)
| RateLimitError (e : PaylioError)
| APIConnectionError (e : PaylioError).

Definition Unwrap (err : SDKError) : PaylioError :=
  match err with
  | APIError e | AuthenticationError e | InvalidRequestError e
  | NotFoundError e | RateLimitError e | APIConnectionError e => e
  end.

(** [func (e *PaylioError) Error() string], promoted to every kind. *)
Definition Error (err : SDKError) : string := Message (Unwrap err).

Definition NewAPIError (p : ErrorParams.t) : SDKError :=
  APIError (newPaylioError p).
Definition NewAuthenticationError (p : ErrorParams.t) : SDKError :=
  AuthenticationError (newPaylioError p).
Definition NewInvalidRequestError (p : ErrorParams.t) : SDKError :=
  InvalidRequestError (newPaylioError p).
Definition NewNotFoundError (p : ErrorParams.t) : SDKError :=
  NotFoundError (newPaylioError p).
Definition NewRateLimitError (p : ErrorParams.t) : SDKError :=
  RateLimitError (newPaylioError p).
Definition NewAPIConnectionError (p : ErrorParams.t) : SDKError :=
  APIConnectionError (newPaylioError p).

(** The [switch status] of [errorClassForStatus], case by case in the order
    of the source. *)
Definition errorClassForStatus (status : Z) (p : ErrorParams.t) : SDKError :=
  if status =? 401 then NewAuthenticationError p
  else if status =? 400 then NewInvalidRequestError p
  else if status =? 404 then NewNotFoundError p
  else if status =? 429 then NewRateLimitError p
  else NewAPIError p.

(** ** Decoder helpers: [PaginatedList] and [unmarshalTo] *)

Record PaginatedList (T : Type) : Type := {
  Items : list T;
  Total : Z;
  Page : Z;
  PageSize : Z;
  TotalPages : Z
}.
Arguments Items {T} _.
Arguments Total {T} _.
Arguments Page {T} _.
Arguments PageSize {T} _.
Arguments TotalPages {T} _.

Definition HasMore {T : Type} (p : PaginatedList T) : bool :=
  (0 <? Page p) && (Page p <? TotalPages p).

(** [json.Unmarshal(b, &result)] for a [result] of the static type [T]: the
    decoder that the type parameter of [unmarshalTo] selects. *)
Class JSONTarget (T : Type) : Type :=
  json_Unmarshal : string -> result T string.

(** ** What the package takes from outside these files

    The calls into the Go standard library, and the one constant of the
    package whose declaration is not among the sources.

    - [json_decode b]: the value [encoding/json] decodes the text [b] to
      when the target is an [any]; [None] when [json.Unmarshal] reports an
      error for [b] (a syntax error, a number outside float64).
    - [json_Marshal m]: [json.Marshal] on a [map[string]any], the JSON text
      or the text of its error.
    - [url_set_query u ps]: lines 48-57 of [request], that is [url.Parse u],
      [q.Set k v] for every entry of [ps], and the URL printed back; [Err]
      holds the text of the error of [url.Parse].
    - [http_NewRequest method u]: the error of [http.NewRequestWithContext],
      if any.
    - [Version]: the constant [Version] of the package, used in the
      [User-Agent] header. *)
Class GoLib : Type := {
  json_decode : string -> option json;
  json_Marshal : gmap string json -> result string string;
  url_set_query : string -> gmap string string -> result string string;
  http_NewRequest : string -> string -> option string;
  Version : string
}.

(** [json.Unmarshal(data, &m)] for [var m map[string]any] (nil before the
    call): the map left in [m] and the error.  A JSON object fills a fresh
    map, the literal [null] leaves [m] nil without an error, every other
    value is an [UnmarshalTypeError].  What a failed call leaves in [m] is
    never read by the caller, which resets it. *)
Definition Unmarshal_map {lib : GoLib} (data : string)
  : option (gmap string json) * option string :=
  match json_decode data with
  | None => (None, Some "json: invalid input")
  | Some (JObject m) => (Some m, None)
  | Some JNull => (None, None)
  | Some _ =>
      (None, Some "json: cannot unmarshal into Go value of type map[string]interface {}")
  end.

(** [unmarshalTo[T]]: marshal the map, unmarshal the text into a [T]; the
    error of [fmt.Errorf] is modelled by its message. *)
Definition unmarshalTo {lib : GoLib} {T : Type} {target : JSONTarget T}
    (data : gmap string json) : result T string :=
  match json_Marshal data with
  | Err err => Err ("failed to marshal response: " +:+ err)
  | Ok b =>
      match json_Unmarshal b with
      | Err err => Err ("failed to unmarshal response: " +:+ err)
      | Ok r => Ok r
      end
  end.

(** ** http_client.go *)

(** [ctx.Err()]. *)
Inductive ctx_err : Type :=
| ctx_nil
| Canceled
| DeadlineExceeded.

(** [resp.Body], by what [io.ReadAll] returns on it. *)
Inductive Body : Type :=
| ReadAll_ok (bodyBytes : string)
| ReadAll_err (err : string).

Record Response : Type := {
  StatusCode : Z;
  Header : gmap string (list string);
  RespBody : Body
}.

(** The [*http.Request] handed to the transport. *)
Record Request : Type := {
  Method : string;
  URL : string;
  ReqHeader : gmap string string;
  ReqBody : option string
}.

(** [hc.client.Do(req)] under the context of the call: a response whose
    status line and headers arrived, or an error together with what
    [ctx.Err()] answers once [Do] has returned. *)
Inductive DoResult : Type :=
| Responded (resp : Response)
| DoFailed (err : string) (ctxErr : ctx_err).

Module requestOptions.
Record t : Type := mk {
  Params : option (gmap string string);
  JSONBody : option (gmap string json)
}.
End requestOptions.

(** [client] answers for [*http.Client]: given the timeout put on the
    context and the request, the result of [Do]. *)
Record httpClient : Type := {
  apiKey : string;
  baseURL : string;
  timeout : Z;
  client : Z -> Request -> DoResult
}.

(** [strings.TrimRight(s, "/")]. *)
Fixpoint TrimRight_slash (s : string) : string :=
  match s with
  | EmptyString => EmptyString
  | String c rest =>
      match TrimRight_slash rest with
      | EmptyString => if Ascii.eqb c "/" then EmptyString else String c EmptyString
      | kept => String c kept
      end
  end.

Definition newHTTPClient (apiKey baseURL : string) (timeout : Z)
    (client : Z -> Request -> DoResult) : httpClient :=
  {| apiKey := apiKey; baseURL := TrimRight_slash baseURL;
     timeout := timeout; client := client |}.

(** One turn of the loop of lines 104-108:
    [if len(v) > 0 { headers[k] = v[0] }]. *)
Definition copy_first (k : string) (v : list string)
    (headers : gmap string string) : gmap string string :=
  match v with
  | [] => headers
  | v0 :: _ => <[k := v0]> headers
  end.

(** [headers := make(map[string]string)] and the [range] over
    [resp.Header]. *)
Definition first_values (h : gmap string (list string)) : gmap string string :=
  map_fold copy_first ∅ h.

Definition handleResponse {lib : GoLib} (resp : Response)
  : result (gmap string json) SDKError :=
  let httpStatus := StatusCode resp in
  match RespBody resp with
  | ReadAll_err err =>
      Err (NewAPIConnectionError
             (ErrorParams.of_message ("failed to read response body: " +:+ err)))
  | ReadAll_ok bodyBytes =>
      let httpBody := bodyBytes in
      let headers := first_values (Header resp) in
      let jsonBody :=
        match Unmarshal_map bodyBytes with
        | (_, Some _) => None
        | (m, None) => m
        end in
      if (200 <=? httpStatus) && (httpStatus <? 300) then
        match jsonBody with
        | None =>
            Err (NewAPIError
                   {| ErrorParams.Message := "Invalid JSON in response body";
                      ErrorParams.HTTPStatus := httpStatus;
                      ErrorParams.HTTPBody := httpBody;
                      ErrorParams.JSONBody := None;
                      ErrorParams.Headers := None;
                      ErrorParams.Code := "" |})
        | Some m => Ok m
        end
      else
        let '(errorCode, errorMessage) :=
          match jsonBody with
          | None => ("", httpBody)
          | Some m =>
              match m !! "error" with
              | Some (JObject e) =>
                  (match e !! "code" with
                   | Some (JString code) => code
                   | _ => ""
                   end,
                   match e !! "message" with
                   | Some (JString msg) => msg
                   | _ => httpBody
                   end)
              | Some (JString e) => ("", e)
              | Some _ => ("", httpBody)
              | None =>
                  match m !! "detail" with
                  | Some (JString detail) => ("", detail)
                  | _ => ("", httpBody)
                  end
              end
          end in
        Err (errorClassForStatus httpStatus
               {| ErrorParams.Message := errorMessage;
                  ErrorParams.HTTPStatus := httpStatus;
                  ErrorParams.HTTPBody := httpBody;
                  ErrorParams.JSONBody := jsonBody;
                  ErrorParams.Headers := Some headers;
                  ErrorParams.Code := errorCode |})
  end.

(** The bytes [net/textproto] accepts in a header key: letters, digits and
    the punctuation of an HTTP token. *)
Definition validHeaderFieldByte (c : ascii) : bool :=
  let n := nat_of_ascii c in
  ((48 <=? n)%nat && (n <=? 57)%nat)
  || ((65 <=? n)%nat && (n <=? 90)%nat)
  || ((97 <=? n)%nat && (n <=? 122)%nat)
  || existsb (Nat.eqb n) [33; 35; 36; 37; 38; 39; 42; 43; 45; 46;
                           94; 95; 96; 124; 126]%nat.

Fixpoint all_valid_header_bytes (s : string) : bool :=
  match s with
  | EmptyString => true
  | String c rest => validHeaderFieldByte c && all_valid_header_bytes rest
  end.

(** The loop of [textproto.CanonicalMIMEHeaderKey]: the first letter and
    every letter after a hyphen in upper case, the other letters in lower
    case. *)
Fixpoint canonical_from (upper : bool) (s : string) : string :=
  match s with
  | EmptyString => EmptyString
  | String c rest =>
      let n := nat_of_ascii c in
      let c' :=
        if upper && (97 <=? n)%nat && (n <=? 122)%nat then ascii_of_nat (n - 32)
        else if negb upper && (65 <=? n)%nat && (n <=? 90)%nat then
          ascii_of_nat (n + 32)
        else c in
      String c' (canonical_from (Ascii.eqb c' "-") rest)
  end.

(** [textproto.CanonicalMIMEHeaderKey]: a key holding a byte that is not
    valid in a header key is returned as it is. *)
Definition CanonicalMIMEHeaderKey (s : string) : string :=
  if all_valid_header_bytes s then canonical_from true s else s.

(** [h.Set(key, value)] on an [http.Header]: the value replaces what the
    canonical form of the key held.  A request header set this way has one
    value, which is what the map keeps. *)
Definition Header_Set (key value : string) (h : gmap string string)
  : gmap string string :=
  <[CanonicalMIMEHeaderKey key := value]> h.

(** The five [req.Header.Set] calls, on the empty header of a new
    request. *)
Definition request_headers {lib : GoLib} (hc : httpClient) : gmap string string :=
  Header_Set "X-SDK-Source" "go"
    (Header_Set "User-Agent" ("paylio-go/" +:+ Version)
       (Header_Set "Accept" "application/json"
          (Header_Set "Content-Type" "application/json"
             (Header_Set "X-API-Key" (apiKey hc) ∅)))).

(** [request] returns the requests it handed to the transport (none or
    one) next to its Go result.  [http.NewRequestWithContext] turns the
    empty method into [GET]. *)
Definition request {lib : GoLib} (hc : httpClient) (method path : string)
    (opts : option requestOptions.t)
  : list Request * result (gmap string json) SDKError :=
  let fullURL := baseURL hc +:+ path in
  let with_params :=
    match opts with
    | Some {| requestOptions.Params := Some params |} =>
        url_set_query fullURL params
    | _ => Ok fullURL
    end in
  match with_params with
  | Err err =>
      ([], Err (NewAPIConnectionError
                  (ErrorParams.of_message ("failed to parse URL: " +:+ err))))
  | Ok fullURL =>
      let marshalled :=
        match opts with
        | Some {| requestOptions.JSONBody := Some jsonBody |} =>
            match json_Marshal jsonBody with
            | Ok b => Ok (Some b)
            | Err err => Err err
            end
        | _ => Ok None
        end in
      match marshalled with
      | Err err =>
          ([], Err (NewAPIConnectionError
                      (ErrorParams.of_message ("failed to marshal body: " +:+ err))))
      | Ok body =>
          match http_NewRequest method fullURL with
          | Some err =>
              ([], Err (NewAPIConnectionError
                          (ErrorParams.of_message
                             ("failed to create request: " +:+ err))))
          | None =>
              let req := {| Method := (if String.eqb method "" then "GET"
                                       else method);
                            URL := fullURL;
                            ReqHeader := request_headers hc;
                            ReqBody := body |} in
              match client hc (timeout hc) req with
              | DoFailed err ctxErr =>
                  match ctxErr with
                  | DeadlineExceeded =>
                      ([req], Err (NewAPIConnectionError
                                     (ErrorParams.of_message "Request timed out")))
                  | _ =>
                      ([req], Err (NewAPIConnectionError
                                     (ErrorParams.of_message
                                        ("Connection error: " +:+ err))))
                  end
              | Responded resp => ([req], handleResponse resp)
              end
          end
      end
  end.

(** ** The shapes decoded by the services *)

Record SubscriptionCancel : Type := {
  ID : string;
  Object : string;
  Success : bool;
  CancelAtPeriodEnd : bool
}.

(** ** Test doubles

    Stand-ins for the standard library on the payloads of the package's
    test-suite, in the way the tests put an [httptest] server or a hand-made
    [http.Response] behind the client.  The properties below hold for every
    [GoLib]; the doubles serve to run the code on concrete exchanges. *)

Module Double.

Definition dq : string := String "034"%char EmptyString.
Definition quoted (s : string) : string := dq +:+ s +:+ dq.

(** [{"error": {"code": "invalid_param", "message": "bad field"}}] *)
Definition body_v1 : string :=
  "{" +:+ quoted "error" +:+ ": {" +:+ quoted "code" +:+ ": "
      +:+ quoted "invalid_param" +:+ ", " +:+ quoted "message" +:+ ": "
      +:+ quoted "bad field" +:+ "}}".
(** [{"error": "legacy error message"}] *)
Definition body_legacy : string :=
  "{" +:+ quoted "error" +:+ ": " +:+ quoted "legacy error message" +:+ "}".
(** [{"detail": "fastapi error"}] *)
Definition body_fastapi : string :=
  "{" +:+ quoted "detail" +:+ ": " +:+ quoted "fastapi error" +:+ "}".
(** [{"unknown_key": "value"}] *)
Definition body_unknown : string :=
  "{" +:+ quoted "unknown_key" +:+ ": " +:+ quoted "value" +:+ "}".
(** [{"error": true, "detail": "quota exceeded"}] *)
Definition body_flag : string :=
  "{" +:+ quoted "error" +:+ ": true, " +:+ quoted "detail" +:+ ": "
      +:+ quoted "quota exceeded" +:+ "}".
(** [{"id": "sub_1", "status": "active"}] *)
Definition body_sub : string :=
  "{" +:+ quoted "id" +:+ ": " +:+ quoted "sub_1" +:+ ", "
      +:+ quoted "status" +:+ ": " +:+ quoted "active" +:+ "}".
(** [["a", "b"]] *)
Definition body_array : string :=
  "[" +:+ quoted "a" +:+ ", " +:+ quoted "b" +:+ "]".
Definition body_null : string := "null".
Definition body_text : string := "Internal Server Error".

(** The decoded values of the bodies above; any other text is refused. *)
Definition decode (b : string) : option json :=
  if String.eqb b body_v1 then
    Some (JObject {[ "error" :=
      JObject (<["code" := JString "invalid_param"]>
                 {[ "message" := JString "bad field" ]}) ]})
  else if String.eqb b body_legacy then
    Some (JObject {[ "error" := JString "legacy error message" ]})
  else if String.eqb b body_fastapi then
    Some (JObject {[ "detail" := JString "fastapi error" ]})
  else if String.eqb b body_unknown then
    Some (JObject {[ "unknown_key" := JString "value" ]})
  else if String.eqb b body_flag then
    Some (JObject (<["error" := JBool true]>
                     {[ "detail" := JString "quota exceeded" ]}))
  else if String.eqb b body_sub then
    Some (JObject (<["id" := JString "sub_1"]>
                     {[ "status" := JString "active" ]}))
  else if String.eqb b body_array then
    Some (JArray [JString "a"; JString "b"])
  else if String.eqb b body_null then Some JNull
  else None.

(** [json.Marshal] refuses a float64 that is NaN or infinite; of the other
    maps the double prints those of one string or bool entry. *)
Definition unsupported (v : json) : option string :=
  match v with
  | JNumber f =>
      if PrimFloat.is_nan f then Some "json: unsupported value: NaN"
      else if PrimFloat.is_infinity f then
        Some (if PrimFloat.ltb f 0%float then "json: unsupported value: -Inf"
              else "json: unsupported value: +Inf")
      else None
  | _ => None
  end.

Definition marshal (m : gmap string json) : result string string :=
  match map_to_list m with
  | [] => Ok "{}"
  | [(k, v)] =>
      match unsupported v, v with
      | Some err, _ => Err err
      | None, JString s => Ok ("{" +:+ quoted k +:+ ":" +:+ quoted s +:+ "}")
      | None, JBool b =>
          Ok ("{" +:+ quoted k +:+ ":" +:+ (if b then "true" else "false") +:+ "}")
      | None, _ => Err "double: payload not covered"
      end
  | _ => Err "double: payload not covered"
  end.

(** [url.Parse] refuses a URL holding an ASCII control character; of the
    other URLs the double handles those without a query of their own and
    appends the entries as they are, in the order of the map. *)
Definition is_ctl (c : ascii) : bool :=
  let n := nat_of_ascii c in (n <? 32)%nat || (n =? 127)%nat.

Fixpoint has_ctl (s : string) : bool :=
  match s with
  | EmptyString => false
  | String c rest => is_ctl c || has_ctl rest
  end.

Definition set_query (u : string) (params : gmap string string)
  : result string string :=
  if has_ctl u then
    Err "net/url: invalid control character in URL"
  else
    match map_to_list params with
    | [] => Ok u
    | kvs =>
        Ok (u +:+ "?" +:+
            String.concat "&" (map (fun kv => kv.1 +:+ "=" +:+ kv.2) kvs))
    end.

(** [http.NewRequestWithContext] refuses a method holding a space. *)
Fixpoint has_space (s : string) : bool :=
  match s with
  | EmptyString => false
  | String c rest => Ascii.eqb c " " || has_space rest
  end.

Definition new_request (method u : string) : option string :=
  if has_space method then
    Some ("net/http: invalid method " +:+ quoted method)
  else None.

Definition lib : GoLib :=
  {| json_decode := decode;
     json_Marshal := marshal;
     url_set_query := set_query;
     http_NewRequest := new_request;
     Version := "0.1.0" |}.

(** Decoding into [SubscriptionCancel]: the text of a cancellation, and a
    text whose [success] field holds a string. *)
Definition cancel_text : string :=
  "{" +:+ quoted "success" +:+ ":true}".
Definition cancel_mistyped : string :=
  "{" +:+ quoted "success" +:+ ":" +:+ quoted "yes" +:+ "}".

Definition unmarshal_cancel (b : string) : result SubscriptionCancel string :=
  if String.eqb b cancel_text then
    Ok {| ID := ""; Object := ""; Success := true; CancelAtPeriodEnd := false |}
  else if String.eqb b cancel_mistyped then
    Err "json: cannot unmarshal string into Go struct field SubscriptionCancel.success of type bool"
  else Err "double: text not covered".

Definition cancel_target : JSONTarget SubscriptionCancel := unmarshal_cancel.

(** Transports: a server that answers every request with [resp], one that
    holds its answer until the deadline has passed, and an address where
    nothing listens. *)
Definition serving (resp : Response) : Z -> Request -> DoResult :=
  fun _ _ => Responded resp.
Definition stalling : Z -> Request -> DoResult :=
  fun _ _ => DoFailed "context deadline exceeded" DeadlineExceeded.
Definition refusing : Z -> Request -> DoResult :=
  fun _ _ => DoFailed "dial tcp 127.0.0.1:1: connect: connection refused" ctx_nil.

End Double.

(** ** Reading aids for the statements *)

(** The type assertion [v, ok := x.(string)] on the result of a map index
    expression. *)
Definition as_string (x : option json) : option string :=
  match x with
  | Some (JString s) => Some s
  | _ => None
  end.

(** The object a body text stands for, if it stands for one. *)
Definition as_object (x : option json) : option (gmap string json) :=
  match x with
  | Some (JObject m) => Some m
  | _ => None
  end.

(** The error message and code as the specification orders them: an object
    under [error], else a string under [error], else a string under
    [detail], else the raw body.  The result is (message, code). *)
Definition stated_priority (httpBody : string) (m : gmap string json)
  : string * string :=
  match m !! "error" with
  | Some (JObject e) =>
      (default httpBody (as_string (e !! "message")),
       default "" (as_string (e !! "code")))
  | Some (JString s) => (s, "")
  | _ =>
      match m !! "detail" with
      | Some (JString d) => (d, "")
      | _ => (httpBody, "")
      end
  end.

(** A status in [200, 300). *)
Definition is_2xx (status : Z) : Prop := 200 <= status < 300.

(** The error of a Go result, if it has one. *)
Definition failure {A : Type} (r : result A SDKError) : option SDKError :=
  match r with
  | Ok _ => None
  | Err e => Some e
  end.

(** An [http.Response] with status [status], no headers and body [b]. *)
Definition plain_response (status : Z) (b : string) : Response :=
  {| StatusCode := status; Header := ∅; RespBody := ReadAll_ok b |}.


(** Responses used to run the code. *)
Definition resp_flag : Response := plain_response 400 Double.body_flag.

Definition resp_cookies : Response :=
  {| StatusCode := 500;
     Header := <["Set-Cookie" := ["a=1"; "b=2"] ]>
                 (<["X-Request-Id" := ["req_abc"] ]>
                    {[ "X-Empty" := [] ]});
     RespBody := ReadAll_ok Double.body_text |}.

(** Clients and request options used to run the code. *)
Definition hc_stalling : httpClient :=
  newHTTPClient "sk_test" "http://127.0.0.1:8080/" 50 Double.stalling.

Definition hc_refusing : httpClient :=
  newHTTPClient "sk_test" "http://127.0.0.1:1" 5000 Double.refusing.

(** A base URL made of the DEL character, which [url.Parse] refuses. *)
Definition hc_del : httpClient :=
  newHTTPClient "sk_test" (String "127"%char EmptyString) 10000 Double.refusing.

Definition opts_nan_body : requestOptions.t :=
  {| requestOptions.Params := None;
     requestOptions.JSONBody := Some {[ "bad" := JNumber nan ]} |}.

Definition opts_params_and_nan_body : requestOptions.t :=
  {| requestOptions.Params := Some {[ "key" := "val" ]};
     requestOptions.JSONBody := Some {[ "bad" := JNumber nan ]} |}.

(** ** The service layer and the client constructor

    [subscription_service.go] and the file of [NewClient], on top of the
    transport core above. *)

(** What these two files take from the standard library:
    [strings.TrimSpace], and [&http.Client{}], the transport a client gets
    when no option supplies one. *)
Class GoRuntime : Type := {
  strings_TrimSpace : string -> string;
  http_DefaultClient : Z -> Request -> DoResult
}.

(** [strconv.Itoa]: the decimal digits of the integer, behind a minus sign
    when it is negative. *)
Definition Itoa (n : Z) : string := NilZero.string_of_int (Z.to_int n).

(** An [error] as the services return it: the one of [errors.New] or
    [fmt.Errorf], known by its message, or one of the SDK errors. *)
Inductive GoError : Type :=
| errorString (msg : string)
| sdkError (e : SDKError).

Module Plan.
Record t : Type := mk {
  Slug : string;
  Name : string;
  Interval : string;
  Amount : float;
  Currency : string
}.
End Plan.

Module Period.
Record t : Type := mk {
  Start : string;
  End_ : string
}.
End Period.

Module Subscription.
Record t : Type := mk {
  ID : string;
  Object : string;
  Status : string;
  UserID : string;
  Plan : Plan.t;
  SubscriptionPeriod : Period.t;
  CancelAtPeriodEnd : bool;
  CanceledAt : option string;
  Provider : string;
  CreatedAt : string
}.
End Subscription.

Module SubscriptionHistoryItem.
Record t : Type := mk {
  ID : string;
  UserID : string;
  PlanSlug : string;
  PlanName : string;
  PlanAmount : float;
  PlanCurrency : string;
  PlanInterval : string;
  Status : string;
  CurrentPeriodStart : string;
  CurrentPeriodEnd : string;
  CreatedAt : string
}.
End SubscriptionHistoryItem.

Module ListOptions.
Record t : Type := mk {
  Page : Z;
  PageSize : Z
}.
End ListOptions.

Module CancelOptions.
Record t : Type := mk {
  CancelNow : bool
}.
End CancelOptions.

Record SubscriptionService : Type := {
  http : httpClient
}.

Definition newSubscriptionService (hc : httpClient) : SubscriptionService :=
  {| http := hc |}.

(** The tail shared by the three services: the error of the transport is
    returned as it is, the decoded map goes through [unmarshalTo]. *)
Definition decode_reply {lib : GoLib} {T : Type} {target : JSONTarget T}
    (reply : list Request * result (gmap string json) SDKError)
  : list Request * result T GoError :=
  match reply with
  | (sent, Err err) => (sent, Err (sdkError err))
  | (sent, Ok data) =>
      (sent, match unmarshalTo data with
             | Ok r => Ok r
             | Err msg => Err (errorString msg)
             end)
  end.

Definition Retrieve {lib : GoLib} {rt : GoRuntime}
    {target : JSONTarget Subscription.t}
    (s : SubscriptionService) (userID : string)
  : list Request * result Subscription.t GoError :=
  if String.eqb (strings_TrimSpace userID) "" then
    ([], Err (errorString "userID is required"))
  else
    decode_reply (request (http s) "GET" ("/subscription/" +:+ userID) None).

(** The [page] and [pageSize] of [List] after the two guarded
    assignments. *)
Definition list_page (opts : option ListOptions.t) : Z :=
  match opts with
  | Some o => if 0 <? ListOptions.Page o then ListOptions.Page o else 1
  | None => 1
  end.

Definition list_pageSize (opts : option ListOptions.t) : Z :=
  match opts with
  | Some o => if 0 <? ListOptions.PageSize o then ListOptions.PageSize o else 20
  | None => 20
  end.

Definition List {lib : GoLib} {rt : GoRuntime}
    {target : JSONTarget (PaginatedList SubscriptionHistoryItem.t)}
    (s : SubscriptionService) (userID : string) (opts : option ListOptions.t)
  : list Request * result (PaginatedList SubscriptionHistoryItem.t) GoError :=
  if String.eqb (strings_TrimSpace userID) "" then
    ([], Err (errorString "userID is required"))
  else
    let page := list_page opts in
    let pageSize := list_pageSize opts in
    let params : gmap string string :=
      <["page_size" := Itoa pageSize]> {[ "page" := Itoa page ]} in
    decode_reply
      (request (http s) "GET" ("/users/" +:+ userID +:+ "/subscriptions")
         (Some {| requestOptions.Params := Some params;
                  requestOptions.JSONBody := None |})).

Definition Cancel {lib : GoLib} {rt : GoRuntime}
    {target : JSONTarget SubscriptionCancel}
    (s : SubscriptionService) (subscriptionID : string)
    (opts : option CancelOptions.t)
  : list Request * result SubscriptionCancel GoError :=
  if String.eqb (strings_TrimSpace subscriptionID) "" then
    ([], Err (errorString "subscriptionID is required"))
  else
    let cancelNow :=
      match opts with
      | Some o => CancelOptions.CancelNow o
      | None => false
      end in
    let body : gmap string json :=
      {[ "cancel_at_period_end" := JBool (negb cancelNow) ]} in
    decode_reply
      (request (http s) "POST"
         ("/subscription/" +:+ subscriptionID +:+ "/cancel")
         (Some {| requestOptions.Params := None;
                  requestOptions.JSONBody := Some body |})).

(** [DefaultBaseURL] and [DefaultTimeout] (30 seconds, a [time.Duration] in
    nanoseconds). *)
Definition DefaultBaseURL : string := "https://api.paylio.pro/flying/v1".
Definition DefaultTimeout : Z := 30 * 1000000000.

Module clientConfig.
Record t : Type := mk {
  baseURL : string;
  timeout : Z;
  httpClient : Z -> Request -> DoResult
}.
End clientConfig.

(** [type Option], a function that updates the [clientConfig] it is given:
    the configuration after the call. *)
Definition ClientOption : Type := clientConfig.t -> clientConfig.t.

Definition WithBaseURL (url : string) : ClientOption :=
  fun c => {| clientConfig.baseURL := url;
              clientConfig.timeout := clientConfig.timeout c;
              clientConfig.httpClient := clientConfig.httpClient c |}.

Definition WithTimeout (timeout : Z) : ClientOption :=
  fun c => {| clientConfig.baseURL := clientConfig.baseURL c;
              clientConfig.timeout := timeout;
              clientConfig.httpClient := clientConfig.httpClient c |}.

Definition WithHTTPClient (client : Z -> Request -> DoResult) : ClientOption :=
  fun c => {| clientConfig.baseURL := clientConfig.baseURL c;
              clientConfig.timeout := clientConfig.timeout c;
              clientConfig.httpClient := client |}.

Module Client.
Record t : Type := mk {
  Subscription : SubscriptionService;
  hc : httpClient
}.
End Client.

Definition NewClient {rt : GoRuntime} (apiKey : string) (opts : list ClientOption)
  : result Client.t SDKError :=
  if String.eqb apiKey "" then
    Err (NewAuthenticationError
           (ErrorParams.of_message
              ("No API key provided. Set your API key when creating the client: paylio.NewClient("
               +:+ String "034"%char ("sk_live_xxx" +:+ String "034"%char ")"))))
  else
    let cfg :=
      fold_left (fun (c : clientConfig.t) (opt : ClientOption) => opt c) opts
        {| clientConfig.baseURL := DefaultBaseURL;
           clientConfig.timeout := DefaultTimeout;
           clientConfig.httpClient := http_DefaultClient |} in
    let hc := newHTTPClient apiKey (clientConfig.baseURL cfg)
                (clientConfig.timeout cfg) (clientConfig.httpClient cfg) in
    Ok {| Client.Subscription := newSubscriptionService hc; Client.hc := hc |}.

(** A run of [n] slashes. *)
Fixpoint slashes (n : nat) : string :=
  match n with
  | O => EmptyString
  | S k => String "/" (slashes k)
  end.

(** What the kind of an SDK error tells about the status it records. *)
Definition status_of_kind (e : SDKError) : Prop :=
  match e with
  | AuthenticationError p => HTTPStatus p = 401
  | InvalidRequestError p => HTTPStatus p = 400
  | NotFoundError p => HTTPStatus p = 404
  | RateLimitError p => HTTPStatus p = 429
  | APIError p =>
      HTTPStatus p <> 401 /\ HTTPStatus p <> 400
      /\ HTTPStatus p <> 404 /\ HTTPStatus p <> 429
  | APIConnectionError p =>
      HTTPStatus p = 0 /\ HTTPBody p = "" /\ JSONBody p = None
      /\ Headers p = None /\ Code p = ""
  end.


(** Doubles for the service layer: [strings.TrimSpace] on the ASCII white
    space, and decoders for the shapes of the services. *)
Module ServiceDouble.

Definition is_space (c : ascii) : bool :=
  let n := nat_of_ascii c in
  ((9 <=? n)%nat && (n <=? 13)%nat) || (n =? 32)%nat.

Fixpoint trim_left (s : string) : string :=
  match s with
  | EmptyString => EmptyString
  | String c rest => if is_space c then trim_left rest else s
  end.

Fixpoint trim_right (s : string) : string :=
  match s with
  | EmptyString => EmptyString
  | String c rest =>
      match trim_right rest with
      | EmptyString => if is_space c then EmptyString else String c EmptyString
      | kept => String c kept
      end
  end.

Definition trim_space (s : string) : string := trim_right (trim_left s).

Definition runtime : GoRuntime :=
  {| strings_TrimSpace := trim_space;
     http_DefaultClient := Double.refusing |}.

(** [Double.lib], with the reply [{"success":true}] of a cancellation and the
    reply [{"id":"sub_1"}] of a retrieval added to the texts it decodes. *)
Definition retrieve_text : string :=
  "{" +:+ Double.quoted "id" +:+ ":" +:+ Double.quoted "sub_1" +:+ "}".

Definition lib : GoLib :=
  {| json_decode := fun b =>
       if String.eqb b Double.cancel_text then
         Some (JObject {[ "success" := JBool true ]})
       else if String.eqb b retrieve_text then
         Some (JObject {[ "id" := JString "sub_1" ]})
       else Double.decode b;
     json_Marshal := Double.marshal;
     url_set_query := Double.set_query;
     http_NewRequest := Double.new_request;
     Version := "0.1.0" |}.

Definition sub_1 : Subscription.t :=
  {| Subscription.ID := "sub_1"; Subscription.Object := "";
     Subscription.Status := ""; Subscription.UserID := "";
     Subscription.Plan :=
       {| Plan.Slug := ""; Plan.Name := ""; Plan.Interval := "";
          Plan.Amount := 0%float; Plan.Currency := "" |};
     Subscription.SubscriptionPeriod := {| Period.Start := ""; Period.End_ := "" |};
     Subscription.CancelAtPeriodEnd := false;
     Subscription.CanceledAt := None;
     Subscription.Provider := ""; Subscription.CreatedAt := "" |}.

Definition subscription_target : JSONTarget Subscription.t :=
  fun b => if String.eqb b retrieve_text then Ok sub_1
           else Err "double: text not covered".

Definition history_target
  : JSONTarget (PaginatedList SubscriptionHistoryItem.t) :=
  fun _ => Err "double: text not covered".

End ServiceDouble.

(** Services used to run the code. *)
Definition svc_refusing : SubscriptionService :=
  newSubscriptionService hc_refusing.

(** A server that answers every request with status 200 and the text
    [{"id":"sub_1"}]. *)
Definition svc_retrieving : SubscriptionService :=
  newSubscriptionService
    (newHTTPClient "sk_test" "http://127.0.0.1:8080" 10000
       (Double.serving (plain_response 200 ServiceDouble.retrieve_text))).

(** A server that answers every request with status 200 and the text
    [{"success":true}]. *)
Definition svc_cancelling : SubscriptionService :=
  newSubscriptionService
    (newHTTPClient "sk_test" "http://127.0.0.1:8080" 10000
       (Double.serving (plain_response 200 Double.cancel_text))).

(** The text of [context.DeadlineExceeded]. *)
Definition deadline_exceeded_text : string := "context deadline exceeded".

(** The deadline of the call elapsed before the exchange was complete:
    [Do] failed and the context reports its deadline exceeded, or the
    response arrived and the deadline cut [io.ReadAll], which then returns
    [context.DeadlineExceeded]. *)
Definition deadline_elapsed (outcome : DoResult) : Prop :=
  match outcome with
  | DoFailed _ DeadlineExceeded => True
  | DoFailed _ _ => False
  | Responded resp => RespBody resp = ReadAll_err deadline_exceeded_text
  end.

(** A server that sends the status line and the headers at once and holds
    the body back until the deadline of the call has passed. *)
Definition slow_body : Z -> Request -> DoResult :=
  fun _ _ =>
    Responded {| StatusCode := 200;
                 Header := {[ "Content-Type" := ["application/json"] ]};
                 RespBody := ReadAll_err deadline_exceeded_text |}.

Definition hc_slow_body : httpClient :=
  newHTTPClient "sk_test" "http://127.0.0.1:8080" 50 slow_body.

(** * Properties *)

Ltac status_range := unfold is_2xx; simpl; lia.

(** ** Runs of the package's tests *)

Example HasMore_table :
  HasMore {| Items := @nil string; Total := 25; Page := 1; PageSize := 10;
             TotalPages := 3 |} = true
  /\ HasMore {| Items := @nil string; Total := 25; Page := 3; PageSize := 10;
                TotalPages := 3 |} = false
  /\ HasMore {| Items := @nil string; Total := 0; Page := 0; PageSize := 0;
                TotalPages := 0 |} = false
  /\ HasMore {| Items := @nil string; Total := 50; Page := 2; PageSize := 10;
                TotalPages := 5 |} = true.
Proof. repeat split. Qed.

Example newHTTPClient_strips_slash :
  baseURL (newHTTPClient "sk_test" "http://127.0.0.1:8080/custom/" 10000
             Double.refusing)
  = "http://127.0.0.1:8080/custom".
Proof. reflexivity. Qed.

Example error_format_legacy :
  Error <$> failure (handleResponse (lib := Double.lib)
                       (plain_response 400 Double.body_legacy))
  = Some "legacy error message".
Proof. reflexivity. Qed.

Example error_format_fastapi :
  Error <$> failure (handleResponse (lib := Double.lib)
                       (plain_response 400 Double.body_fastapi))
  = Some "fastapi error".
Proof. reflexivity. Qed.

Example error_format_unrecognized :
  Error <$> failure (handleResponse (lib := Double.lib)
                       (plain_response 500 Double.body_unknown))
  = Some Double.body_unknown.
Proof. reflexivity. Qed.

Example error_non_json_fallback :
  handleResponse (lib := Double.lib) (plain_response 500 Double.body_text)
  = Err (APIError {| Message := "Internal Server Error"; HTTPStatus := 500;
                     HTTPBody := "Internal Server Error"; JSONBody := None;
                     Headers := Some ∅; Code := "" |}).
Proof. reflexivity. Qed.

Example invalid_method :
  request (lib := Double.lib) hc_refusing "BAD METHOD" "/test" None
  = ([], Err (APIConnectionError
                {| Message := "failed to create request: net/http: invalid method "
                              +:+ Double.quoted "BAD METHOD";
                   HTTPStatus := 0; HTTPBody := ""; JSONBody := None;
                   Headers := None; Code := "" |})).
Proof. reflexivity. Qed.

(** C4: [HasMore] answers true exactly when [Page > 0] and
    [Page < TotalPages], whatever the other fields hold; a list on page 0
    and a list on its last page ([Page = TotalPages]) both answer false. *)
Theorem HasMore_iff :
  forall (T : Type) (items : list T) (total page pageSize totalPages : Z),
    let p := {| Items := items; Total := total; Page := page;
                PageSize := pageSize; TotalPages := totalPages |} in
    (HasMore p = true <-> page > 0 /\ page < totalPages)
    /\ HasMore {| Items := items; Total := total; Page := 0;
                  PageSize := pageSize; TotalPages := totalPages |} = false
    /\ HasMore {| Items := items; Total := total; Page := totalPages;
                  PageSize := pageSize; TotalPages := totalPages |} = false.
Proof.
  intros T items total page pageSize totalPages p.
  unfold HasMore; simpl. split; [split | split].
  - intros Hb. apply andb_prop in Hb as [H1 H2].
    apply Z.ltb_lt in H1, H2. lia.
  - intros [H1 H2]. apply andb_true_intro. split; apply Z.ltb_lt; lia.
  - reflexivity.
  - rewrite Z.ltb_irrefl. apply andb_false_r.
Qed.


(** ** Lemmas on the parts of [handleResponse] *)

Lemma is_2xx_true (status : Z) :
  is_2xx status -> (200 <=? status) && (status <? 300) = true.
Proof.
  intros [Hlo Hhi]. apply andb_true_intro.
  split; [apply Z.leb_le | apply Z.ltb_lt]; assumption.
Qed.

Lemma is_2xx_false (status : Z) :
  ~ is_2xx status -> (200 <=? status) && (status <? 300) = false.
Proof.
  intros Hn. unfold is_2xx in Hn.
  destruct (Z.leb_spec 200 status), (Z.ltb_spec status 300);
    simpl; try reflexivity; lia.
Qed.

Section handleResponse_parts.
Context {lib : GoLib}.

(** The body kept in [jsonBody] after the reset of line 112. *)
Lemma jsonBody_as_object (b : string) :
  match Unmarshal_map b with
  | (_, Some _) => None
  | (m, None) => m
  end = as_object (json_decode b).
Proof.
  unfold Unmarshal_map.
  destruct (json_decode b) as [[ | | | | | ] | ]; reflexivity.
Qed.

Lemma errorClassForStatus_cases (status : Z) (p : ErrorParams.t) :
  errorClassForStatus status p =
    if decide (status = 401) then AuthenticationError (newPaylioError p)
    else if decide (status = 400) then InvalidRequestError (newPaylioError p)
    else if decide (status = 404) then NotFoundError (newPaylioError p)
    else if decide (status = 429) then RateLimitError (newPaylioError p)
    else APIError (newPaylioError p).
Proof.
  unfold errorClassForStatus.
  repeat case_decide; subst; try reflexivity.
  repeat match goal with
         | Hne : ?s <> ?n |- context [?s =? ?n] =>
             rewrite (proj2 (Z.eqb_neq s n) Hne)
         end.
  reflexivity.
Qed.

Lemma errorClassForStatus_Unwrap (status : Z) (p : ErrorParams.t) :
  Unwrap (errorClassForStatus status p) = newPaylioError p.
Proof.
  rewrite errorClassForStatus_cases. repeat case_decide; reflexivity.
Qed.

(** The loop over [resp.Header], entry by entry. *)
Lemma first_values_lookup (h : gmap string (list string)) (k : string) :
  first_values h !! k = h !! k ≫= head.
Proof.
  unfold first_values. revert k.
  apply (map_fold_weak_ind
           (fun (acc : gmap string string) (m : gmap string (list string)) =>
              forall k, acc !! k = m !! k ≫= head)).
  - intros k. rewrite !lookup_empty. reflexivity.
  - intros i x m acc Hfresh IH k.
    destruct (decide (i = k)) as [-> | Hne].
    + rewrite lookup_insert_eq. destruct x as [ | v0 vs]; simpl.
      * rewrite IH, Hfresh. reflexivity.
      * apply lookup_insert_eq.
    + rewrite (lookup_insert_ne m) by assumption.
      destruct x as [ | v0 vs]; simpl.
      * apply IH.
      * rewrite lookup_insert_ne by assumption. apply IH.
Qed.

(** [handleResponse] on a body that could not be read. *)
Lemma handleResponse_unread (resp : Response) (err : string) :
  RespBody resp = ReadAll_err err ->
  handleResponse resp =
    Err (APIConnectionError
           {| Message := "failed to read response body: " +:+ err;
              HTTPStatus := 0; HTTPBody := ""; JSONBody := None;
              Headers := None; Code := "" |}).
Proof. intros Hbody. unfold handleResponse. rewrite Hbody. reflexivity. Qed.

(** [handleResponse] on a status in [200, 300). *)
Lemma handleResponse_success_branch (resp : Response) (body : string) :
  RespBody resp = ReadAll_ok body ->
  is_2xx (StatusCode resp) ->
  handleResponse resp =
    match as_object (json_decode body) with
    | Some m => Ok m
    | None =>
        Err (APIError
               {| Message := "Invalid JSON in response body";
                  HTTPStatus := StatusCode resp; HTTPBody := body;
                  JSONBody := None; Headers := None; Code := "" |})
    end.
Proof.
  intros Hbody Hst. unfold handleResponse.
  rewrite Hbody, jsonBody_as_object, (is_2xx_true _ Hst).
  destruct (as_object (json_decode body)); reflexivity.
Qed.

(** [handleResponse] on any other status: the classified error, with the
    message and the code still to be read off the parsed body. *)
Lemma handleResponse_error_branch (resp : Response) (body : string) :
  RespBody resp = ReadAll_ok body ->
  ~ is_2xx (StatusCode resp) ->
  exists errorCode errorMessage : string,
    handleResponse resp =
      Err (errorClassForStatus (StatusCode resp)
             {| ErrorParams.Message := errorMessage;
                ErrorParams.HTTPStatus := StatusCode resp;
                ErrorParams.HTTPBody := body;
                ErrorParams.JSONBody := as_object (json_decode body);
                ErrorParams.Headers := Some (first_values (Header resp));
                ErrorParams.Code := errorCode |})
    /\ match as_object (json_decode body) with
       | None => errorCode = "" /\ errorMessage = body
       | Some m =>
           match m !! "error" with
           | Some (JObject e) =>
               errorCode = default "" (as_string (e !! "code"))
               /\ errorMessage = default body (as_string (e !! "message"))
           | Some (JString e) => errorCode = "" /\ errorMessage = e
           | Some _ => errorCode = "" /\ errorMessage = body
           | None =>
               errorCode = ""
               /\ errorMessage = default body (as_string (m !! "detail"))
           end
       end.
Proof.
  intros Hbody Hst. unfold handleResponse.
  rewrite Hbody, jsonBody_as_object, (is_2xx_false _ Hst).
  destruct (as_object (json_decode body)) as [m | ].
  2: { eexists _, _. split; [reflexivity | split; reflexivity]. }
  destruct (m !! "error") as [[ | b | f | e | l | e] | ] eqn:Herr;
    try (eexists _, _; split; [reflexivity | split; reflexivity]).
  - eexists _, _. split; [reflexivity | ]. split.
    + destruct (e !! "code") as [[ | | | | | ] | ]; reflexivity.
    + destruct (e !! "message") as [[ | | | | | ] | ]; reflexivity.
  - destruct (m !! "detail") as [[ | | | | | ] | ];
      eexists _, _; (split; [reflexivity | split; reflexivity]).
Qed.

End handleResponse_parts.

(** ** Properties of [handleResponse] *)



(** C3: on a status in [200, 300), a body that does not decode to a JSON
    object gives the [APIError] with the message "Invalid JSON in response
    body", the status and the raw body of the response; a body that
    decodes to an object gives that object as the successful result. *)
Theorem handleResponse_2xx
    {lib : GoLib} (resp : Response) (body : string) :
  RespBody resp = ReadAll_ok body ->
  is_2xx (StatusCode resp) ->
  ((forall m, json_decode body <> Some (JObject m)) ->
   handleResponse resp =
     Err (APIError
            {| Message := "Invalid JSON in response body";
               HTTPStatus := StatusCode resp; HTTPBody := body;
               JSONBody := None; Headers := None; Code := "" |}))
  /\ (forall m, json_decode body = Some (JObject m) ->
      handleResponse resp = Ok m).
Proof.
  intros Hbody Hst.
  rewrite (handleResponse_success_branch resp body Hbody Hst).
  split.
  - intros Hno.
    destruct (json_decode body) as [[ | | | | | m] | ]; try reflexivity.
    destruct (Hno m). reflexivity.
  - intros m Hm. rewrite Hm. reflexivity.
Qed.

Lemma handleResponse_2xx_samples :
  handleResponse (lib := Double.lib) (plain_response 200 "not json")
  = Err (APIError
           {| Message := "Invalid JSON in response body";
              HTTPStatus := 200; HTTPBody := "not json";
              JSONBody := None; Headers := None; Code := "" |})
  /\ handleResponse (lib := Double.lib) (plain_response 200 Double.body_sub)
     = Ok (<["id" := JString "sub_1"]> {[ "status" := JString "active" ]}).
Proof.
  assert (H200 : is_2xx 200) by status_range.
  split.
  - apply (handleResponse_2xx (lib := Double.lib)
             (plain_response 200 "not json") "not json" eq_refl H200).
    intros m Hm. vm_compute in Hm. discriminate Hm.
  - apply (handleResponse_2xx (lib := Double.lib)
             (plain_response 200 Double.body_sub) Double.body_sub
             eq_refl H200).
    reflexivity.
Defined.

(** C2 (as amended): for a non-2xx response whose body decodes to an
    object, the message and the code of the error follow the [error] field
    first: an object under [error] gives its string [message] (else the raw
    body) and its string [code] (else no code); a string under [error] is
    the message; any other value under [error] leaves the raw body as the
    message, whatever [detail] holds; only without an [error] field is a
    string [detail] the message, and the raw body otherwise. *)
Theorem handleResponse_message_priority
    {lib : GoLib} (resp : Response) (body : string) (m : gmap string json) :
  RespBody resp = ReadAll_ok body ->
  ~ is_2xx (StatusCode resp) ->
  json_decode body = Some (JObject m) ->
  exists e : SDKError,
    handleResponse resp = Err e
    /\ match m !! "error" with
       | Some (JObject o) =>
           Message (Unwrap e) = default body (as_string (o !! "message"))
           /\ Code (Unwrap e) = default "" (as_string (o !! "code"))
       | Some (JString s) => Message (Unwrap e) = s /\ Code (Unwrap e) = ""
       | Some _ => Message (Unwrap e) = body /\ Code (Unwrap e) = ""
       | None =>
           Message (Unwrap e) = default body (as_string (m !! "detail"))
           /\ Code (Unwrap e) = ""
       end.
Proof.
  intros Hbody Hst Hdec.
  destruct (handleResponse_error_branch resp body Hbody Hst)
    as (code & msg & Hres & Htext).
  rewrite Hdec in Htext. simpl in Htext.
  eexists. split; [exact Hres | ].
  rewrite errorClassForStatus_Unwrap. simpl.
  destruct (m !! "error") as [[ | | | | | ] | ];
    destruct Htext as [-> ->]; split; reflexivity.
Qed.

Lemma handleResponse_message_priority_v1 :
  RespBody (plain_response 400 Double.body_v1) = ReadAll_ok Double.body_v1
  /\ ~ is_2xx (StatusCode (plain_response 400 Double.body_v1))
  /\ exists e : SDKError,
       handleResponse (lib := Double.lib) (plain_response 400 Double.body_v1)
       = Err e
       /\ Message (Unwrap e) = "bad field"
       /\ Code (Unwrap e) = "invalid_param".
Proof.
  assert (Hst : ~ is_2xx (StatusCode (plain_response 400 Double.body_v1)))
    by status_range.
  split; [reflexivity | split; [exact Hst | ]].
  exact (handleResponse_message_priority (lib := Double.lib)
           (plain_response 400 Double.body_v1) Double.body_v1 _
           eq_refl Hst eq_refl).
Defined.

(** C2 as stated fails on the body
    [{"error": true, "detail": "quota exceeded"}] with status 400: the
    stated order reaches the [detail] field, the code keeps the raw body as
    the message. *)
Lemma detail_skipped_under_error_flag :
  json_decode (GoLib := Double.lib) Double.body_flag
  = Some (JObject (<["error" := JBool true]>
                     {[ "detail" := JString "quota exceeded" ]}))
  /\ stated_priority Double.body_flag
       (<["error" := JBool true]> {[ "detail" := JString "quota exceeded" ]})
     = ("quota exceeded", "")
  /\ exists e : PaylioError,
       handleResponse (lib := Double.lib) resp_flag = Err (InvalidRequestError e)
       /\ Message e = Double.body_flag
       /\ Code e = ""
       /\ Message e <> "quota exceeded".
Proof.
  split; [reflexivity | ]. split; [reflexivity | ].
  eexists. split; [vm_compute; reflexivity | ].
  split; [reflexivity | ]. split; [reflexivity | ].
  simpl. intros Heq. vm_compute in Heq. discriminate Heq.
Qed.

(** C9: a body that decodes to a JSON value other than an object is handled
    as a body that does not decode at all: on a status in [200, 300) the
    result is the [APIError] "Invalid JSON in response body"; on any other
    status the classified error has no parsed body and its message is the
    raw body; and the result is the one obtained were the same text
    refused by the JSON decoder. *)
Theorem handleResponse_non_object
    {lib : GoLib} (resp : Response) (body : string) (v : json) :
  RespBody resp = ReadAll_ok body ->
  json_decode body = Some v ->
  (forall m, v <> JObject m) ->
  (is_2xx (StatusCode resp) ->
   handleResponse resp =
     Err (APIError
            {| Message := "Invalid JSON in response body";
               HTTPStatus := StatusCode resp; HTTPBody := body;
               JSONBody := None; Headers := None; Code := "" |}))
  /\ (~ is_2xx (StatusCode resp) ->
      handleResponse resp =
        Err (errorClassForStatus (StatusCode resp)
               {| ErrorParams.Message := body;
                  ErrorParams.HTTPStatus := StatusCode resp;
                  ErrorParams.HTTPBody := body;
                  ErrorParams.JSONBody := None;
                  ErrorParams.Headers := Some (first_values (Header resp));
                  ErrorParams.Code := "" |}))
  /\ (forall lib' : GoLib,
        json_decode (GoLib := lib') body = None ->
        handleResponse (lib := lib') resp = handleResponse (lib := lib) resp).
Proof.
  intros Hbody Hdec Hv.
  assert (Hobj : as_object (json_decode body) = None).
  { rewrite Hdec. destruct v; try reflexivity. destruct (Hv m). reflexivity. }
  assert (H2xx : is_2xx (StatusCode resp) ->
                 handleResponse resp =
                   Err (APIError
                          {| Message := "Invalid JSON in response body";
                             HTTPStatus := StatusCode resp; HTTPBody := body;
                             JSONBody := None; Headers := None; Code := "" |})).
  { intros Hst.
    rewrite (handleResponse_success_branch resp body Hbody Hst), Hobj.
    reflexivity. }
  assert (Hother : ~ is_2xx (StatusCode resp) ->
                   handleResponse resp =
                     Err (errorClassForStatus (StatusCode resp)
                            {| ErrorParams.Message := body;
                               ErrorParams.HTTPStatus := StatusCode resp;
                               ErrorParams.HTTPBody := body;
                               ErrorParams.JSONBody := None;
                               ErrorParams.Headers :=
                                 Some (first_values (Header resp));
                               ErrorParams.Code := "" |})).
  { intros Hst.
    destruct (handleResponse_error_branch resp body Hbody Hst)
      as (code & msg & Hres & Htext).
    rewrite Hobj in Hres, Htext. destruct Htext as [-> ->]. exact Hres. }
  split; [exact H2xx | ]. split; [exact Hother | ].
  intros lib' Hnone.
  assert (Hcase : is_2xx (StatusCode resp) \/ ~ is_2xx (StatusCode resp))
    by (unfold is_2xx; lia).
  destruct Hcase as [Hst | Hst].
  - rewrite (H2xx Hst).
    rewrite (handleResponse_success_branch (lib := lib') resp body Hbody Hst).
    rewrite Hnone. reflexivity.
  - rewrite (Hother Hst).
    destruct (handleResponse_error_branch (lib := lib') resp body Hbody Hst)
      as (code & msg & Hres & Htext).
    rewrite Hnone in Hres, Htext. simpl in Hres, Htext.
    destruct Htext as [-> ->]. exact Hres.
Qed.

Lemma handleResponse_array_body :
  json_decode (GoLib := Double.lib) Double.body_array
  = Some (JArray [JString "a"; JString "b"])
  /\ handleResponse (lib := Double.lib) (plain_response 200 Double.body_array)
     = Err (APIError
              {| Message := "Invalid JSON in response body";
                 HTTPStatus := 200; HTTPBody := Double.body_array;
                 JSONBody := None; Headers := None; Code := "" |})
  /\ handleResponse (lib := Double.lib) (plain_response 502 Double.body_array)
     = Err (APIError
              {| Message := Double.body_array;
                 HTTPStatus := 502; HTTPBody := Double.body_array;
                 JSONBody := None; Headers := Some ∅; Code := "" |}).
Proof.
  assert (Hv : forall m, JArray [JString "a"; JString "b"] <> JObject m)
    by (intros m Hm; discriminate Hm).
  split; [reflexivity | ]. split.
  - apply (proj1 (handleResponse_non_object (lib := Double.lib)
                    (plain_response 200 Double.body_array)
                    Double.body_array _ eq_refl eq_refl Hv)).
    status_range.
  - apply (proj1 (proj2 (handleResponse_non_object (lib := Double.lib)
                           (plain_response 502 Double.body_array)
                           Double.body_array _ eq_refl eq_refl Hv))).
    status_range.
Defined.




(** C10: whenever an outcome of [handleResponse] has a header mapping
    attached, the mapping holds for each key of the response headers the
    first of its values and nothing else: a key with several values gives
    its first one, a key with an empty list of values and a key that is
    absent give no entry.  Every error of a non-2xx response whose body was
    read has such a mapping attached. *)
Theorem handleResponse_first_header_value
    {lib : GoLib} (resp : Response) :
  (forall (e : SDKError) (hm : gmap string string),
      handleResponse resp = Err e ->
      Headers (Unwrap e) = Some hm ->
      (forall k v vs, Header resp !! k = Some (v :: vs) -> hm !! k = Some v)
      /\ (forall k, Header resp !! k = Some [] -> hm !! k = None)
      /\ (forall k, Header resp !! k = None -> hm !! k = None))
  /\ (forall body : string,
        RespBody resp = ReadAll_ok body ->
        ~ is_2xx (StatusCode resp) ->
        exists e, handleResponse resp = Err e
                  /\ Headers (Unwrap e) = Some (first_values (Header resp))).
Proof.
  assert (Hattached : forall body : string,
             RespBody resp = ReadAll_ok body ->
             ~ is_2xx (StatusCode resp) ->
             exists e, handleResponse resp = Err e
                       /\ Headers (Unwrap e) = Some (first_values (Header resp))).
  { intros body Hbody Hst.
    destruct (handleResponse_error_branch resp body Hbody Hst)
      as (code & msg & Hres & _).
    eexists. split; [exact Hres | ].
    rewrite errorClassForStatus_Unwrap. reflexivity. }
  split; [ | exact Hattached].
  intros e hm Hres Hhm.
  assert (Hfv : hm = first_values (Header resp)).
  { destruct (RespBody resp) as [body | err] eqn:Hbody.
    - assert (Hcase : is_2xx (StatusCode resp) \/ ~ is_2xx (StatusCode resp))
        by (unfold is_2xx; lia).
      destruct Hcase as [Hst | Hst].
      + rewrite (handleResponse_success_branch resp body Hbody Hst) in Hres.
        destruct (as_object (json_decode body)); [discriminate Hres | ].
        injection Hres as <-. discriminate Hhm.
      + destruct (Hattached body eq_refl Hst) as (e' & Hres' & Hhm').
        rewrite Hres in Hres'. injection Hres' as <-.
        rewrite Hhm in Hhm'. injection Hhm' as ->. reflexivity.
    - rewrite (handleResponse_unread resp err Hbody) in Hres.
      injection Hres as <-. discriminate Hhm. }
  subst hm.
  repeat split; intros k; [intros v vs Hk | intros Hk | intros Hk];
    rewrite first_values_lookup, Hk; reflexivity.
Qed.

Lemma handleResponse_first_header_value_cookies :
  exists e : SDKError,
    handleResponse (lib := Double.lib) resp_cookies = Err e
    /\ exists hm : gmap string string,
         Headers (Unwrap e) = Some hm
         /\ hm !! "Set-Cookie" = Some "a=1"
         /\ hm !! "X-Empty" = None
         /\ hm !! "Retry-After" = None.
Proof.
  assert (Hst : ~ is_2xx (StatusCode resp_cookies)) by status_range.
  destruct (handleResponse_first_header_value (lib := Double.lib) resp_cookies)
    as [Hshape Hattached].
  destruct (Hattached Double.body_text eq_refl Hst) as (e & Hres & Hhm).
  exists e. split; [exact Hres | ].
  exists (first_values (Header resp_cookies)). split; [exact Hhm | ].
  destruct (Hshape e _ Hres Hhm) as (Hfirst & Hempty & Habsent).
  split; [ | split].
  - apply (Hfirst "Set-Cookie" "a=1" ["b=2"]). reflexivity.
  - apply (Hempty "X-Empty"). reflexivity.
  - apply (Habsent "Retry-After"). reflexivity.
Defined.

(** ** Properties of [request] *)

(** What [request] returns once it has handed [req] to the transport. *)
Lemma request_after_send
    {lib : GoLib} (hc : httpClient) (method path : string)
    (opts : option requestOptions.t) (req : Request) :
  (request hc method path opts).1 = [req] ->
  (request hc method path opts).2 =
    match client hc (timeout hc) req with
    | DoFailed err DeadlineExceeded =>
        Err (NewAPIConnectionError (ErrorParams.of_message "Request timed out"))
    | DoFailed err _ =>
        Err (NewAPIConnectionError
               (ErrorParams.of_message ("Connection error: " +:+ err)))
    | Responded resp => handleResponse resp
    end.
Proof.
  unfold request.
  destruct opts as [[[ps | ] [jb | ]] | ]; simpl;
    repeat match goal with
           | |- context [url_set_query ?u ?ps] =>
               destruct (url_set_query u ps); simpl
           | |- context [json_Marshal ?m] => destruct (json_Marshal m); simpl
           | |- context [http_NewRequest ?a ?b] =>
               destruct (http_NewRequest a b); simpl
           end;
    try (intros Hsent; discriminate Hsent);
    match goal with
    | |- context [client hc (timeout hc) ?r] =>
        destruct (client hc (timeout hc) r) as [resp | err [ | | ]] eqn:Hdo;
        simpl; intros Hsent; injection Hsent as <-; rewrite Hdo; reflexivity
    end.
Qed.

(** C6 (as amended): when the transport was handed the request and the send
    fails, that is before a response with its headers has arrived, the
    result is an [APIConnectionError] without status; its message is
    exactly "Request timed out" when the context reports its deadline
    exceeded, and "Connection error: " followed by the text of the
    transport error in every other case; no transport error text makes the
    second message equal to the first. *)
Theorem request_send_failure
    {lib : GoLib} (hc : httpClient) (method path : string)
    (opts : option requestOptions.t) (req : Request)
    (err : string) (ctxErr : ctx_err) :
  (request hc method path opts).1 = [req] ->
  client hc (timeout hc) req = DoFailed err ctxErr ->
  (ctxErr = DeadlineExceeded ->
   (request hc method path opts).2 =
     Err (APIConnectionError
            {| Message := "Request timed out"; HTTPStatus := 0;
               HTTPBody := ""; JSONBody := None; Headers := None;
               Code := "" |}))
  /\ (ctxErr <> DeadlineExceeded ->
      (request hc method path opts).2 =
        Err (APIConnectionError
               {| Message := "Connection error: " +:+ err; HTTPStatus := 0;
                  HTTPBody := ""; JSONBody := None; Headers := None;
                  Code := "" |}))
  /\ (forall other : string, "Request timed out" <> "Connection error: " +:+ other).
Proof.
  intros Hsent Hdo.
  rewrite (request_after_send hc method path opts req Hsent), Hdo.
  split; [ | split].
  - intros ->. reflexivity.
  - intros Hne. destruct ctxErr; [reflexivity | reflexivity | ].
    destruct Hne. reflexivity.
  - intros other Heq. discriminate Heq.
Qed.

Lemma request_send_failure_samples :
  (exists req, (request (lib := Double.lib) hc_stalling "GET" "/slow" None).1 = [req])
  /\ (request (lib := Double.lib) hc_stalling "GET" "/slow" None).2 =
       Err (APIConnectionError
              {| Message := "Request timed out"; HTTPStatus := 0;
                 HTTPBody := ""; JSONBody := None; Headers := None;
                 Code := "" |})
  /\ (request (lib := Double.lib) hc_refusing "GET" "/fail" None).2 =
       Err (APIConnectionError
              {| Message :=
                   "Connection error: dial tcp 127.0.0.1:1: connect: connection refused";
                 HTTPStatus := 0; HTTPBody := ""; JSONBody := None;
                 Headers := None; Code := "" |}).
Proof.
  split; [eexists; reflexivity | ]. split.
  - apply (proj1 (request_send_failure (lib := Double.lib)
                    hc_stalling "GET" "/slow" None _
                    "context deadline exceeded" DeadlineExceeded
                    eq_refl eq_refl)).
    reflexivity.
  - apply (proj1 (proj2 (request_send_failure (lib := Double.lib)
                           hc_refusing "GET" "/fail" None _
                           "dial tcp 127.0.0.1:1: connect: connection refused"
                           ctx_nil eq_refl eq_refl))).
    intros Hne. discriminate Hne.
Defined.

(** C6 as stated fails on a server that answers with its headers in time
    and holds the body back past the deadline: the deadline elapses before
    the exchange is complete, [Do] has succeeded, and the error is the one
    of the failed body read, not "Request timed out". *)
Lemma deadline_during_body_read :
  exists (req : Request) (resp : Response),
    (request (lib := Double.lib) hc_slow_body "GET" "/slow" None).1 = [req]
    /\ client hc_slow_body (timeout hc_slow_body) req = Responded resp
    /\ deadline_elapsed (client hc_slow_body (timeout hc_slow_body) req)
    /\ (request (lib := Double.lib) hc_slow_body "GET" "/slow" None).2
       = Err (APIConnectionError
                {| Message :=
                     "failed to read response body: context deadline exceeded";
                   HTTPStatus := 0; HTTPBody := ""; JSONBody := None;
                   Headers := None; Code := "" |})
    /\ "failed to read response body: context deadline exceeded"
       <> "Request timed out".
Proof.
  eexists _, _. split; [reflexivity | ]. split; [reflexivity | ].
  split; [reflexivity | ]. split; [reflexivity | ].
  intros Heq. discriminate Heq.
Qed.

(** C7 (as amended): a request whose JSON body cannot be marshalled fails
    before anything is handed to the transport, with an
    [APIConnectionError] of status 0.  The message cites the marshal
    failure when no query parameters were supplied or the URL with its
    query was built; when the query parameters were supplied and the URL
    did not parse, the message cites that failure, which comes first. *)
Theorem request_unserializable_body
    {lib : GoLib} (hc : httpClient) (method path : string)
    (o : requestOptions.t) (jsonBody : gmap string json) (err : string) :
  requestOptions.JSONBody o = Some jsonBody ->
  json_Marshal jsonBody = Err err ->
  exists e : PaylioError,
    request hc method path (Some o) = ([], Err (APIConnectionError e))
    /\ HTTPStatus e = 0
    /\ (requestOptions.Params o = None ->
        Message e = "failed to marshal body: " +:+ err)
    /\ (forall params fullURL,
          requestOptions.Params o = Some params ->
          url_set_query (baseURL hc +:+ path) params = Ok fullURL ->
          Message e = "failed to marshal body: " +:+ err)
    /\ (forall params urlErr,
          requestOptions.Params o = Some params ->
          url_set_query (baseURL hc +:+ path) params = Err urlErr ->
          Message e = "failed to parse URL: " +:+ urlErr).
Proof.
  intros Hbody Hmarshal. destruct o as [params jb]. simpl in Hbody. subst jb.
  unfold request. destruct params as [ps | ]; simpl.
  - destruct (url_set_query (baseURL hc +:+ path) ps) as [u | uerr] eqn:Hurl;
      simpl; rewrite ?Hmarshal; simpl;
      (eexists; split; [reflexivity | ]; split; [reflexivity | ]);
      (split; [intros Hnone; discriminate Hnone | ]);
      split; intros ps' x Hps Hx; injection Hps as <-;
      rewrite Hurl in Hx; try discriminate Hx.
    + reflexivity.
    + injection Hx as <-. reflexivity.
  - rewrite Hmarshal. simpl.
    eexists. split; [reflexivity | ]. split; [reflexivity | ].
    split; [reflexivity | ].
    split; intros ps' x Hps; discriminate Hps.
Qed.

Lemma request_unserializable_body_nan :
  requestOptions.JSONBody opts_nan_body = Some {[ "bad" := JNumber nan ]}
  /\ json_Marshal (GoLib := Double.lib) {[ "bad" := JNumber nan ]}
     = Err "json: unsupported value: NaN"
  /\ exists e : PaylioError,
       request (lib := Double.lib) hc_refusing "POST" "/test" (Some opts_nan_body)
       = ([], Err (APIConnectionError e))
       /\ HTTPStatus e = 0
       /\ Message e = "failed to marshal body: json: unsupported value: NaN".
Proof.
  split; [reflexivity | ]. split; [reflexivity | ].
  destruct (request_unserializable_body (lib := Double.lib)
              hc_refusing "POST" "/test" opts_nan_body
              {[ "bad" := JNumber nan ]} "json: unsupported value: NaN"
              eq_refl eq_refl)
    as (e & Hres & Hstatus & Hmsg & _).
  exists e. split; [exact Hres | ]. split; [exact Hstatus | ].
  apply Hmsg. reflexivity.
Defined.

(** C7 as stated fails on a request that carries query parameters and a
    body holding NaN, sent through a client whose base URL does not parse:
    the body cannot be marshalled, yet the error cites the URL. *)
Lemma marshal_failure_behind_url_failure :
  json_Marshal (GoLib := Double.lib) {[ "bad" := JNumber nan ]}
  = Err "json: unsupported value: NaN"
  /\ request (lib := Double.lib) hc_del "POST" "/test"
       (Some opts_params_and_nan_body)
     = ([], Err (APIConnectionError
                   {| Message :=
                        "failed to parse URL: net/url: invalid control character in URL";
                      HTTPStatus := 0; HTTPBody := ""; JSONBody := None;
                      Headers := None; Code := "" |}))
  /\ "failed to parse URL: net/url: invalid control character in URL"
     <> "failed to marshal body: json: unsupported value: NaN".
Proof.
  split; [reflexivity | ]. split; [vm_compute; reflexivity | ].
  intros Heq. discriminate Heq.
Qed.

(** ** Properties of the decoder *)

(** C5: [unmarshalTo] marshals the map and unmarshals the text it obtained
    into the target type.  A failure of the first step is reported as
    "failed to marshal response: ..." and a failure of the second as
    "failed to unmarshal response: ...", each followed by the text of the
    underlying error; when both steps succeed the decoded value is
    returned; the two messages never coincide. *)
Theorem unmarshalTo_two_steps
    {lib : GoLib} {T : Type} {target : JSONTarget T}
    (data : gmap string json) :
  (forall err, json_Marshal data = Err err ->
     unmarshalTo data = Err ("failed to marshal response: " +:+ err))
  /\ (forall b err, json_Marshal data = Ok b -> json_Unmarshal b = Err err ->
        unmarshalTo data = Err ("failed to unmarshal response: " +:+ err))
  /\ (forall b r, json_Marshal data = Ok b -> json_Unmarshal b = Ok r ->
        unmarshalTo data = Ok r)
  /\ (forall err1 err2 : string,
        "failed to marshal response: " +:+ err1
        <> "failed to unmarshal response: " +:+ err2).
Proof.
  unfold unmarshalTo. split; [ | split; [ | split]].
  - intros err ->. reflexivity.
  - intros b err -> ->. reflexivity.
  - intros b r -> ->. reflexivity.
  - intros err1 err2 Heq. discriminate Heq.
Qed.

Lemma unmarshalTo_two_steps_samples :
  unmarshalTo (lib := Double.lib) (target := Double.cancel_target)
    {[ "value" := JNumber nan ]}
  = Err "failed to marshal response: json: unsupported value: NaN"
  /\ unmarshalTo (lib := Double.lib) (target := Double.cancel_target)
       {[ "success" := JString "yes" ]}
     = Err "failed to unmarshal response: json: cannot unmarshal string into Go struct field SubscriptionCancel.success of type bool"
  /\ unmarshalTo (lib := Double.lib) (target := Double.cancel_target)
       {[ "success" := JBool true ]}
     = Ok {| ID := ""; Object := ""; Success := true;
             CancelAtPeriodEnd := false |}.
Proof.
  split; [ | split].
  - apply (proj1 (unmarshalTo_two_steps (lib := Double.lib)
                    (target := Double.cancel_target)
                    {[ "value" := JNumber nan ]})).
    reflexivity.
  - apply (proj1 (proj2 (unmarshalTo_two_steps (lib := Double.lib)
                           (target := Double.cancel_target)
                           {[ "success" := JString "yes" ]}))
             Double.cancel_mistyped); reflexivity.
  - apply (proj1 (proj2 (proj2 (unmarshalTo_two_steps (lib := Double.lib)
                                  (target := Double.cancel_target)
                                  {[ "success" := JBool true ]})))
             Double.cancel_text); reflexivity.
Defined.

(** * Further properties of the package *)

(** ** Helper lemmas on [request] *)

Section request_parts.
Context {lib : GoLib}.

(** [request] hands the transport nothing or one request. *)
Lemma request_trace_cases (hc : httpClient) (method path : string)
    (opts : option requestOptions.t) :
  (request hc method path opts).1 = []
  \/ exists req, (request hc method path opts).1 = [req].
Proof.
  unfold request.
  destruct opts as [[[ps | ] [jb | ]] | ]; simpl;
    repeat match goal with
           | |- context [url_set_query ?u ?ps] =>
               destruct (url_set_query u ps); simpl
           | |- context [json_Marshal ?m] => destruct (json_Marshal m); simpl
           | |- context [http_NewRequest ?a ?b] =>
               destruct (http_NewRequest a b); simpl
           | |- context [client hc (timeout hc) ?r] =>
               destruct (client hc (timeout hc) r) as [resp | err [ | | ]]; simpl
           end;
    first [left; reflexivity | right; eexists; reflexivity].
Qed.

(** The request handed to the transport, field by field. *)
Lemma request_sent_shape (hc : httpClient) (method path : string)
    (opts : option requestOptions.t) (req : Request) :
  (request hc method path opts).1 = [req] ->
  Method req = (if String.eqb method "" then "GET" else method)
  /\ ReqHeader req = request_headers hc
  /\ http_NewRequest method (URL req) = None
  /\ match opts ≫= requestOptions.Params with
     | Some params => url_set_query (baseURL hc +:+ path) params = Ok (URL req)
     | None => URL req = baseURL hc +:+ path
     end
  /\ match opts ≫= requestOptions.JSONBody with
     | Some jsonBody =>
         exists b, json_Marshal jsonBody = Ok b /\ ReqBody req = Some b
     | None => ReqBody req = None
     end.
Proof.
  unfold request.
  destruct opts as [[[ps | ] [jb | ]] | ]; simpl;
    repeat match goal with
           | |- context [match url_set_query ?u ?ps with _ => _ end] =>
               destruct (url_set_query u ps) eqn:?; simpl
           | |- context [match json_Marshal ?m with _ => _ end] =>
               destruct (json_Marshal m) eqn:?; simpl
           | |- context [match http_NewRequest ?a ?b with _ => _ end] =>
               destruct (http_NewRequest a b) eqn:?; simpl
           | |- context [client hc (timeout hc) ?r] =>
               destruct (client hc (timeout hc) r) as [resp | err [ | | ]]; simpl
           end;
    intros Hsent; try discriminate Hsent;
    injection Hsent as <-; simpl;
    repeat split; eauto.
Qed.

(** The failures that precede the transport. *)
Lemma request_unsent (hc : httpClient) (method path : string)
    (opts : option requestOptions.t) :
  (request hc method path opts).1 = [] ->
  exists cause : string,
    ((request hc method path opts).2 =
       Err (NewAPIConnectionError
              (ErrorParams.of_message ("failed to parse URL: " +:+ cause)))
     /\ exists params, opts ≫= requestOptions.Params = Some params
                       /\ url_set_query (baseURL hc +:+ path) params = Err cause)
    \/ ((request hc method path opts).2 =
          Err (NewAPIConnectionError
                 (ErrorParams.of_message ("failed to marshal body: " +:+ cause)))
        /\ exists jsonBody, opts ≫= requestOptions.JSONBody = Some jsonBody
                            /\ json_Marshal jsonBody = Err cause)
    \/ ((request hc method path opts).2 =
          Err (NewAPIConnectionError
                 (ErrorParams.of_message ("failed to create request: " +:+ cause)))
        /\ exists fullURL, http_NewRequest method fullURL = Some cause).
Proof.
  unfold request.
  destruct opts as [[[ps | ] [jb | ]] | ]; simpl;
    repeat match goal with
           | |- context [url_set_query ?u ?ps] =>
               destruct (url_set_query u ps) eqn:?; simpl
           | |- context [json_Marshal ?m] =>
               destruct (json_Marshal m) eqn:?; simpl
           | |- context [http_NewRequest ?a ?b] =>
               destruct (http_NewRequest a b) eqn:?; simpl
           | |- context [client hc (timeout hc) ?r] =>
               destruct (client hc (timeout hc) r) as [resp | err [ | | ]]; simpl
           end;
    intros Hsent; try discriminate Hsent;
    eexists;
    first [ left; split; [reflexivity | eauto]
          | right; left; split; [reflexivity | eauto]
          | right; right; split; [reflexivity | eauto] ].
Qed.

(** A successful [handleResponse], read backwards. *)
Lemma handleResponse_Ok_inv (resp : Response) (m : gmap string json) :
  handleResponse resp = Ok m ->
  exists body : string,
    RespBody resp = ReadAll_ok body
    /\ is_2xx (StatusCode resp)
    /\ json_decode body = Some (JObject m).
Proof.
  intros Hres.
  destruct (RespBody resp) as [body | err] eqn:Hbody.
  2: { rewrite (handleResponse_unread resp err Hbody) in Hres.
       discriminate Hres. }
  assert (Hcase : is_2xx (StatusCode resp) \/ ~ is_2xx (StatusCode resp))
    by (unfold is_2xx; lia).
  destruct Hcase as [Hst | Hst].
  - rewrite (handleResponse_success_branch resp body Hbody Hst) in Hres.
    exists body. split; [reflexivity | split; [exact Hst | ]].
    destruct (json_decode body) as [[ | | | | | m'] | ];
      simpl in Hres; try discriminate Hres.
    injection Hres as ->. reflexivity.
  - destruct (handleResponse_error_branch resp body Hbody Hst)
      as (code & msg & Hres' & _).
    rewrite Hres' in Hres. discriminate Hres.
Qed.

(** The kind of every error of [handleResponse] against its status. *)
Lemma handleResponse_status_of_kind (resp : Response) (e : SDKError) :
  handleResponse resp = Err e -> status_of_kind e.
Proof.
  intros Hres.
  destruct (RespBody resp) as [body | err] eqn:Hbody.
  2: { rewrite (handleResponse_unread resp err Hbody) in Hres.
       injection Hres as <-. simpl. repeat split. }
  assert (Hcase : is_2xx (StatusCode resp) \/ ~ is_2xx (StatusCode resp))
    by (unfold is_2xx; lia).
  destruct Hcase as [Hst | Hst].
  - rewrite (handleResponse_success_branch resp body Hbody Hst) in Hres.
    destruct (as_object (json_decode body)); [discriminate Hres | ].
    injection Hres as <-. simpl. unfold is_2xx in Hst. lia.
  - destruct (handleResponse_error_branch resp body Hbody Hst)
      as (code & msg & Hres' & _).
    rewrite Hres', errorClassForStatus_cases in Hres.
    injection Hres as <-.
    repeat case_decide; simpl; repeat split; assumption.
Qed.

(** An error of [request] is made before or at the transport, or comes
    from [handleResponse]. *)
Lemma request_Err_cases (hc : httpClient) (method path : string)
    (opts : option requestOptions.t) (e : SDKError) :
  (request hc method path opts).2 = Err e ->
  (exists msg, e = NewAPIConnectionError (ErrorParams.of_message msg))
  \/ (exists resp, handleResponse resp = Err e).
Proof.
  intros Hres.
  destruct (request_trace_cases hc method path opts) as [Hnone | [req Hsent]].
  - left.
    destruct (request_unsent hc method path opts Hnone)
      as (cause & [[Herr _] | [[Herr _] | [Herr _]]]);
      rewrite Herr in Hres; injection Hres as <-; eexists; reflexivity.
  - rewrite (request_after_send hc method path opts req Hsent) in Hres.
    destruct (client hc (timeout hc) req) as [resp | err [ | | ]] eqn:Hdo;
      try (left; injection Hres as <-; eexists; reflexivity).
    right. exists resp. exact Hres.
Qed.

(** A map is returned only after a request was sent. *)
Lemma request_Ok_sent (hc : httpClient) (method path : string)
    (opts : option requestOptions.t) (m : gmap string json) :
  (request hc method path opts).2 = Ok m ->
  exists req, (request hc method path opts).1 = [req].
Proof.
  intros Hres.
  destruct (request_trace_cases hc method path opts) as [Hnone | Hsent];
    [ | exact Hsent].
  destruct (request_unsent hc method path opts Hnone)
    as (cause & [[Herr _] | [[Herr _] | [Herr _]]]);
    rewrite Herr in Hres; discriminate Hres.
Qed.

End request_parts.

(** ** Helper lemmas on strings *)

Lemma append_cons (c : ascii) (s t : string) :
  String c s +:+ t = String c (s +:+ t).
Proof. reflexivity. Qed.

Lemma append_empty_r (s : string) : s +:+ "" = s.
Proof.
  induction s as [ | c s IH]; [reflexivity | ].
  rewrite append_cons, IH. reflexivity.
Qed.

Lemma append_assoc (a b c : string) : (a +:+ b) +:+ c = a +:+ (b +:+ c).
Proof.
  induction a as [ | ch a IH]; [reflexivity | ].
  rewrite !append_cons, IH. reflexivity.
Qed.

Lemma slashes_succ_r (n : nat) : slashes (S n) = slashes n +:+ "/".
Proof.
  induction n as [ | n IH]; [reflexivity | ].
  change (String "/" (slashes (S n)) = String "/" (slashes n +:+ "/")).
  f_equal. exact IH.
Qed.

Lemma TrimRight_slash_decompose (s : string) :
  exists n, s = TrimRight_slash s +:+ slashes n.
Proof.
  induction s as [ | c rest [n IH]]; [exists O; reflexivity | ].
  simpl. destruct (TrimRight_slash rest) as [ | d kept] eqn:Htrim.
  - change ("" +:+ slashes n) with (slashes n) in IH.
    destruct (Ascii.eqb_spec c "/") as [-> | Hne].
    + exists (S n). rewrite IH at 1. reflexivity.
    + exists n. rewrite IH at 1. reflexivity.
  - exists n. rewrite append_cons, <- IH. reflexivity.
Qed.

Lemma append_slash_nonempty (t : string) : t +:+ "/" <> "".
Proof. destruct t; discriminate. Qed.

Lemma TrimRight_slash_no_trailing (s prefix : string) :
  TrimRight_slash s <> prefix +:+ "/".
Proof.
  revert prefix. induction s as [ | c rest IH]; intros prefix; simpl.
  - intros Heq. symmetry in Heq. exact (append_slash_nonempty _ Heq).
  - destruct (TrimRight_slash rest) as [ | d kept] eqn:Htrim.
    + destruct (Ascii.eqb_spec c "/") as [-> | Hne].
      * intros Heq. symmetry in Heq. exact (append_slash_nonempty _ Heq).
      * destruct prefix as [ | e prefix]; intros Heq.
        -- injection Heq as Hc. contradiction.
        -- rewrite append_cons in Heq. injection Heq as _ Hrest.
           symmetry in Hrest. exact (append_slash_nonempty _ Hrest).
    + destruct prefix as [ | e prefix]; intros Heq.
      * discriminate Heq.
      * rewrite append_cons in Heq. injection Heq as _ Hrest.
        exact (IH prefix Hrest).
Qed.

(** ** Properties of [newHTTPClient] and of the requests sent *)

(** X1: the base URL kept by [newHTTPClient] is the URL it was given minus
    the slashes at its end, and only those: it never ends in a slash, and a
    URL that does not end in a slash is kept as it is. *)
Theorem newHTTPClient_baseURL_trimmed
    (key url : string) (t : Z) (c : Z -> Request -> DoResult) :
  (exists n, url = baseURL (newHTTPClient key url t c) +:+ slashes n)
  /\ (forall prefix, baseURL (newHTTPClient key url t c) <> prefix +:+ "/")
  /\ ((forall prefix, url <> prefix +:+ "/") ->
      baseURL (newHTTPClient key url t c) = url).
Proof.
  simpl. split; [apply TrimRight_slash_decompose | ].
  split; [intros prefix; apply TrimRight_slash_no_trailing | ].
  intros Hplain. destruct (TrimRight_slash_decompose url) as [[ | n] Hn].
  - simpl in Hn. rewrite append_empty_r in Hn. symmetry. exact Hn.
  - rewrite slashes_succ_r in Hn.
    destruct (Hplain (TrimRight_slash url +:+ slashes n)).
    rewrite Hn at 1. symmetry. apply append_assoc.
Qed.

Lemma newHTTPClient_baseURL_custom :
  (forall prefix, "https://custom.api.com/v1" <> prefix +:+ "/")
  /\ baseURL (newHTTPClient "sk_test" "https://custom.api.com/v1" 10000
                Double.refusing)
     = "https://custom.api.com/v1".
Proof.
  assert (Hplain : forall prefix, "https://custom.api.com/v1" <> prefix +:+ "/").
  { intros prefix Heq.
    apply (TrimRight_slash_no_trailing "https://custom.api.com/v1" prefix).
    exact Heq. }
  split; [exact Hplain | ].
  exact (proj2 (proj2 (newHTTPClient_baseURL_trimmed
                         "sk_test" "https://custom.api.com/v1" 10000
                         Double.refusing)) Hplain).
Defined.

(** X2: every request handed to the transport has the method of the call,
    [GET] standing in for the empty method, and exactly five headers, under
    the canonical keys that [Header.Set] stores: the API key of the client
    under [X-Api-Key], [application/json] under [Content-Type] and
    [Accept], the SDK version under [User-Agent] and [go] under
    [X-Sdk-Source]. *)
Theorem request_fixed_headers
    {lib : GoLib} (hc : httpClient) (method path : string)
    (opts : option requestOptions.t) (req : Request) :
  (request hc method path opts).1 = [req] ->
  (method <> "" -> Method req = method)
  /\ (method = "" -> Method req = "GET")
  /\ ReqHeader req !! "X-Api-Key" = Some (apiKey hc)
  /\ ReqHeader req !! "Content-Type" = Some "application/json"
  /\ ReqHeader req !! "Accept" = Some "application/json"
  /\ ReqHeader req !! "User-Agent" = Some ("paylio-go/" +:+ Version)
  /\ ReqHeader req !! "X-Sdk-Source" = Some "go"
  /\ (forall k, ReqHeader req !! k <> None ->
        k = "X-Api-Key" \/ k = "Content-Type" \/ k = "Accept"
        \/ k = "User-Agent" \/ k = "X-Sdk-Source").
Proof.
  intros Hsent.
  destruct (request_sent_shape hc method path opts req Hsent)
    as (Hm & Hh & _).
  split.
  { intros Hne. rewrite Hm, (proj2 (String.eqb_neq method "") Hne).
    reflexivity. }
  split.
  { intros ->. exact Hm. }
  rewrite Hh. unfold request_headers, Header_Set.
  change (CanonicalMIMEHeaderKey "X-SDK-Source") with "X-Sdk-Source".
  change (CanonicalMIMEHeaderKey "User-Agent") with "User-Agent".
  change (CanonicalMIMEHeaderKey "Accept") with "Accept".
  change (CanonicalMIMEHeaderKey "Content-Type") with "Content-Type".
  change (CanonicalMIMEHeaderKey "X-API-Key") with "X-Api-Key".
  repeat split;
    try (repeat (rewrite lookup_insert_ne by discriminate);
         apply lookup_insert_eq).
  intros k Hk.
  destruct (decide (k = "X-Sdk-Source")) as [-> | H1]; [tauto | ].
  destruct (decide (k = "User-Agent")) as [-> | H2]; [tauto | ].
  destruct (decide (k = "Accept")) as [-> | H3]; [tauto | ].
  destruct (decide (k = "Content-Type")) as [-> | H4]; [tauto | ].
  destruct (decide (k = "X-Api-Key")) as [-> | H5]; [tauto | ].
  destruct Hk.
  repeat (rewrite lookup_insert_ne by congruence).
  apply lookup_empty.
Qed.

Lemma request_fixed_headers_refused :
  exists req : Request,
    (request (lib := Double.lib) hc_refusing "" "/fail" None).1 = [req]
    /\ Method req = "GET"
    /\ ReqHeader req !! "X-Api-Key" = Some "sk_test"
    /\ ReqHeader req !! "X-API-Key" = None
    /\ ReqHeader req !! "User-Agent" = Some "paylio-go/0.1.0".
Proof.
  eexists. split; [reflexivity | ].
  destruct (request_fixed_headers (lib := Double.lib)
              hc_refusing "" "/fail" None _ eq_refl)
    as (_ & Hm & Hkey & _ & _ & Hua & _ & Honly).
  split; [exact (Hm eq_refl) | ]. split; [exact Hkey | ].
  split; [ | exact Hua].
  destruct (ReqHeader _ !! "X-API-Key") eqn:Hraw; [ | reflexivity].
  assert (Hsome : Some s <> None) by discriminate.
  rewrite <- Hraw in Hsome.
  destruct (Honly "X-API-Key" Hsome) as [Hk | [Hk | [Hk | [Hk | Hk]]]];
    discriminate Hk.
Defined.

(** X3: [request] returns a map only after an exchange: exactly one request
    was handed to the transport, the transport answered it with a status in
    [200, 300) and a body that was read in full, and the map is the JSON
    object that body decodes to. *)
Theorem request_Ok_inv
    {lib : GoLib} (hc : httpClient) (method path : string)
    (opts : option requestOptions.t) (m : gmap string json) :
  (request hc method path opts).2 = Ok m ->
  exists (req : Request) (resp : Response) (body : string),
    (request hc method path opts).1 = [req]
    /\ client hc (timeout hc) req = Responded resp
    /\ RespBody resp = ReadAll_ok body
    /\ is_2xx (StatusCode resp)
    /\ json_decode body = Some (JObject m).
Proof.
  intros Hres.
  destruct (request_trace_cases hc method path opts) as [Hnone | [req Hsent]].
  - destruct (request_unsent hc method path opts Hnone)
      as (cause & [[Herr _] | [[Herr _] | [Herr _]]]);
      rewrite Herr in Hres; discriminate Hres.
  - rewrite (request_after_send hc method path opts req Hsent) in Hres.
    destruct (client hc (timeout hc) req) as [resp | err [ | | ]] eqn:Hdo;
      try discriminate Hres.
    destruct (handleResponse_Ok_inv resp m Hres) as (body & Hb & Hst & Hdec).
    exists req, resp, body.
    split; [exact Hsent | ]. split; [exact Hdo | ].
    split; [exact Hb | ]. split; [exact Hst | exact Hdec].
Qed.

Lemma request_Ok_inv_sub :
  (request (lib := Double.lib)
     (newHTTPClient "sk_test" "http://127.0.0.1:8080" 10000
        (Double.serving (plain_response 200 Double.body_sub)))
     "GET" "/sub" None).2
  = Ok (<["id" := JString "sub_1"]> {[ "status" := JString "active" ]})
  /\ exists (req : Request) (resp : Response) (body : string),
       (request (lib := Double.lib)
          (newHTTPClient "sk_test" "http://127.0.0.1:8080" 10000
             (Double.serving (plain_response 200 Double.body_sub)))
          "GET" "/sub" None).1 = [req]
       /\ StatusCode resp = 200
       /\ RespBody resp = ReadAll_ok body.
Proof.
  split; [reflexivity | ].
  destruct (request_Ok_inv (lib := Double.lib)
              (newHTTPClient "sk_test" "http://127.0.0.1:8080" 10000
                 (Double.serving (plain_response 200 Double.body_sub)))
              "GET" "/sub" None _ eq_refl)
    as (req & resp & body & Hsent & Hdo & Hbody & _).
  exists req, resp, body. split; [exact Hsent | ].
  split; [ | exact Hbody].
  injection Hdo as <-. reflexivity.
Defined.

(** X4: the kind of an error returned by [request] fixes the status it
    records: 401, 400, 404 and 429 for the four specific kinds, a status
    other than these four for [APIError], and for [APIConnectionError]
    status 0 with no body, no parsed body, no headers and no code. *)
Theorem request_status_of_kind
    {lib : GoLib} (hc : httpClient) (method path : string)
    (opts : option requestOptions.t) (e : SDKError) :
  (request hc method path opts).2 = Err e ->
  status_of_kind e.
Proof.
  intros Hres.
  destruct (request_Err_cases hc method path opts e Hres)
    as [[msg ->] | [resp Hresp]].
  - simpl. repeat split.
  - exact (handleResponse_status_of_kind resp e Hresp).
Qed.

Lemma request_status_of_kind_refused :
  exists e : SDKError,
    (request (lib := Double.lib) hc_refusing "GET" "/fail" None).2 = Err e
    /\ status_of_kind e.
Proof.
  eexists. split; [reflexivity | ].
  exact (request_status_of_kind (lib := Double.lib)
           hc_refusing "GET" "/fail" None _ eq_refl).
Defined.

(** X5: an error of [handleResponse] has a non-empty code only when the
    body decodes to an object whose [error] field is an object holding that
    code as a string under [code]. *)
Theorem handleResponse_Code_inv
    {lib : GoLib} (resp : Response) (e : SDKError) :
  handleResponse resp = Err e ->
  Code (Unwrap e) <> "" ->
  exists (body : string) (m o : gmap string json),
    RespBody resp = ReadAll_ok body
    /\ json_decode body = Some (JObject m)
    /\ m !! "error" = Some (JObject o)
    /\ o !! "code" = Some (JString (Code (Unwrap e))).
Proof.
  intros Hres Hcode.
  destruct (RespBody resp) as [body | err] eqn:Hbody.
  2: { rewrite (handleResponse_unread resp err Hbody) in Hres.
       injection Hres as <-. destruct Hcode. reflexivity. }
  assert (Hcase : is_2xx (StatusCode resp) \/ ~ is_2xx (StatusCode resp))
    by (unfold is_2xx; lia).
  destruct Hcase as [Hst | Hst].
  { rewrite (handleResponse_success_branch resp body Hbody Hst) in Hres.
    destruct (as_object (json_decode body)); [discriminate Hres | ].
    injection Hres as <-. destruct Hcode. reflexivity. }
  destruct (handleResponse_error_branch resp body Hbody Hst)
    as (code & msg & Hres' & Htext).
  rewrite Hres' in Hres. injection Hres as <-.
  rewrite errorClassForStatus_Unwrap in Hcode |- *. simpl in Hcode |- *.
  destruct (json_decode body) as [[ | | | | | m] | ] eqn:Hdec;
    simpl in Htext; try (destruct Htext as [-> _]; destruct Hcode; reflexivity).
  destruct (m !! "error") as [[ | | | | | o] | ] eqn:Herr;
    try (destruct Htext as [-> _]; destruct Hcode; reflexivity).
  destruct Htext as [-> _].
  exists body, m, o. split; [reflexivity | ]. split; [exact Hdec | ].
  split; [exact Herr | ].
  destruct (o !! "code") as [[ | | | | | ] | ]; simpl in Hcode |- *;
    try (destruct Hcode; reflexivity).
  reflexivity.
Qed.

Lemma handleResponse_Code_inv_v1 :
  exists (e : SDKError) (body : string) (m o : gmap string json),
    handleResponse (lib := Double.lib) (plain_response 400 Double.body_v1) = Err e
    /\ Code (Unwrap e) = "invalid_param"
    /\ json_decode (GoLib := Double.lib) body = Some (JObject m)
    /\ m !! "error" = Some (JObject o)
    /\ o !! "code" = Some (JString "invalid_param").
Proof.
  eexists.
  assert (Hcode : "invalid_param" <> "") by discriminate.
  destruct (handleResponse_Code_inv (lib := Double.lib)
              (plain_response 400 Double.body_v1) _ eq_refl Hcode)
    as (body & m & o & _ & Hdec & Herr & Hc).
  exists body, m, o. split; [reflexivity | ]. split; [reflexivity | ].
  split; [exact Hdec | split; [exact Herr | exact Hc]].
Defined.

(** X6: when the transport answers but the body cannot be read, [request]
    returns an [APIConnectionError] citing the read error, with status 0,
    whatever the status of the response, a status in [200, 300) included. *)
Theorem request_unreadable_body
    {lib : GoLib} (hc : httpClient) (method path : string)
    (opts : option requestOptions.t) (req : Request) (resp : Response)
    (err : string) :
  (request hc method path opts).1 = [req] ->
  client hc (timeout hc) req = Responded resp ->
  RespBody resp = ReadAll_err err ->
  (request hc method path opts).2 =
    Err (APIConnectionError
           {| Message := "failed to read response body: " +:+ err;
              HTTPStatus := 0; HTTPBody := ""; JSONBody := None;
              Headers := None; Code := "" |}).
Proof.
  intros Hsent Hdo Hbody.
  rewrite (request_after_send hc method path opts req Hsent), Hdo.
  exact (handleResponse_unread resp err Hbody).
Qed.

Lemma request_unreadable_body_200 :
  (request (lib := Double.lib)
     (newHTTPClient "sk_test" "http://localhost" 10000
        (Double.serving {| StatusCode := 200; Header := ∅;
                           RespBody := ReadAll_err "read error" |}))
     "GET" "/test" None).2
  = Err (APIConnectionError
           {| Message := "failed to read response body: read error";
              HTTPStatus := 0; HTTPBody := ""; JSONBody := None;
              Headers := None; Code := "" |}).
Proof.
  exact (request_unreadable_body (lib := Double.lib)
           (newHTTPClient "sk_test" "http://localhost" 10000
              (Double.serving {| StatusCode := 200; Header := ∅;
                                 RespBody := ReadAll_err "read error" |}))
           "GET" "/test" None _ _ "read error" eq_refl eq_refl eq_refl).
Defined.



(** X8: the URL and the body of the request sent.  Without query
    parameters the URL is the base URL of the client followed by the path,
    with nothing added or normalised; without a JSON body the request has
    no body; with a JSON body the request body is the text that
    [json.Marshal] gave for it. *)
Theorem request_url_and_body
    {lib : GoLib} (hc : httpClient) (method path : string)
    (opts : option requestOptions.t) (req : Request) :
  (request hc method path opts).1 = [req] ->
  (opts ≫= requestOptions.Params = None -> URL req = baseURL hc +:+ path)
  /\ (opts ≫= requestOptions.JSONBody = None -> ReqBody req = None)
  /\ (forall jsonBody,
        opts ≫= requestOptions.JSONBody = Some jsonBody ->
        exists b, json_Marshal jsonBody = Ok b /\ ReqBody req = Some b).
Proof.
  intros Hsent.
  destruct (request_sent_shape hc method path opts req Hsent)
    as (_ & _ & _ & Hurl & Hbody).
  split; [ | split].
  - intros Hnone. rewrite Hnone in Hurl. exact Hurl.
  - intros Hnone. rewrite Hnone in Hbody. exact Hbody.
  - intros jsonBody Hsome. rewrite Hsome in Hbody. exact Hbody.
Qed.

Lemma request_url_and_body_custom_base :
  exists req : Request,
    (request (lib := Double.lib)
       (newHTTPClient "sk_test" "http://127.0.0.1:8080/custom/" 10000
          Double.refusing)
       "GET" "/path" None).1 = [req]
    /\ URL req = "http://127.0.0.1:8080/custom/path"
    /\ ReqBody req = None.
Proof.
  eexists. split; [reflexivity | ].
  destruct (request_url_and_body (lib := Double.lib)
              (newHTTPClient "sk_test" "http://127.0.0.1:8080/custom/" 10000
                 Double.refusing)
              "GET" "/path" None _ eq_refl)
    as (Hurl & Hbody & _).
  split; [exact (Hurl eq_refl) | exact (Hbody eq_refl)].
Defined.

(** X9: on response headers that have exactly one value each, the header
    mapping built by [handleResponse] loses nothing: putting each value
    back in a one-element list gives the response headers again. *)
Theorem first_values_single_valued (h : gmap string (list string)) :
  (forall k vs, h !! k = Some vs -> exists v, vs = [v]) ->
  (fun v => [v]) <$> first_values h = h.
Proof.
  intros Hsingle. apply map_eq. intros k.
  rewrite lookup_fmap, first_values_lookup.
  destruct (h !! k) as [vs | ] eqn:Hk; [ | reflexivity].
  destruct (Hsingle k vs Hk) as [v ->]. reflexivity.
Qed.

Lemma first_values_single_valued_sample :
  (fun v : string => [v])
    <$> first_values (<["Content-Type" := ["application/json"] ]>
                        {[ "X-Request-Id" := ["req_abc"] ]})
  = <["Content-Type" := ["application/json"] ]>
      {[ "X-Request-Id" := ["req_abc"] ]}.
Proof.
  apply first_values_single_valued.
  intros k vs Hk.
  destruct (decide (k = "Content-Type")) as [-> | Hne].
  - rewrite lookup_insert_eq in Hk. injection Hk as <-. eexists. reflexivity.
  - rewrite lookup_insert_ne in Hk by congruence.
    destruct (decide (k = "X-Request-Id")) as [-> | Hne'].
    + rewrite lookup_singleton_eq in Hk. injection Hk as <-.
      eexists. reflexivity.
    + rewrite lookup_singleton_ne in Hk by congruence. discriminate Hk.
Defined.

(** ** Properties of [NewClient] *)

(** X10: [NewClient] fails exactly on the empty API key, whatever the
    options: with an [AuthenticationError] of status 0 and a non-empty
    message.  With any other key it returns a client that holds the key,
    whose service uses the transport core of the client, and whose base URL
    does not end in a slash. *)
Theorem NewClient_key
    {rt : GoRuntime} (key : string) (opts : list ClientOption) :
  (key = "" ->
   exists p : PaylioError,
     NewClient key opts = Err (AuthenticationError p)
     /\ HTTPStatus p = 0 /\ Message p <> "")
  /\ (key <> "" ->
      exists c : Client.t,
        NewClient key opts = Ok c
        /\ apiKey (Client.hc c) = key
        /\ http (Client.Subscription c) = Client.hc c
        /\ forall prefix, baseURL (Client.hc c) <> prefix +:+ "/").
Proof.
  unfold NewClient. split.
  - intros ->. simpl. eexists. split; [reflexivity | ].
    split; [reflexivity | discriminate].
  - intros Hkey. rewrite (proj2 (String.eqb_neq key "") Hkey).
    eexists. split; [reflexivity | ].
    split; [reflexivity | ]. split; [reflexivity | ].
    intros prefix. apply TrimRight_slash_no_trailing.
Qed.

Lemma NewClient_key_samples :
  (exists p : PaylioError,
     NewClient (rt := ServiceDouble.runtime) "" [WithTimeout 60000000000]
     = Err (AuthenticationError p)
     /\ HTTPStatus p = 0)
  /\ (exists c : Client.t,
        NewClient (rt := ServiceDouble.runtime) "sk_test"
          [WithBaseURL "https://custom.api.com/v1/"]
        = Ok c
        /\ apiKey (Client.hc c) = "sk_test").
Proof.
  split.
  - destruct (proj1 (NewClient_key (rt := ServiceDouble.runtime)
                       "" [WithTimeout 60000000000]) eq_refl)
      as (p & Hres & Hst & _).
    exists p. split; [exact Hres | exact Hst].
  - assert (Hkey : "sk_test" <> "") by discriminate.
    destruct (proj2 (NewClient_key (rt := ServiceDouble.runtime)
                       "sk_test" [WithBaseURL "https://custom.api.com/v1/"])
                Hkey)
      as (c & Hres & Hk & _).
    exists c. split; [exact Hres | exact Hk].
Defined.

(** X11: how the options of [NewClient] combine.  Without options the
    client has the default base URL, the default timeout of 30 seconds and
    the default transport.  An option added at the end of the list decides
    its own field, whatever the options before it did, and leaves the other
    two fields as they were. *)
Theorem NewClient_options
    {rt : GoRuntime} (key : string) (opts : list ClientOption) (c : Client.t) :
  key <> "" ->
  NewClient key opts = Ok c ->
  (opts = [] ->
   baseURL (Client.hc c) = DefaultBaseURL
   /\ timeout (Client.hc c) = DefaultTimeout
   /\ client (Client.hc c) = http_DefaultClient)
  /\ (forall url,
        exists c', NewClient key (opts ++ [WithBaseURL url]) = Ok c'
          /\ Client.hc c' =
               newHTTPClient key url (timeout (Client.hc c)) (client (Client.hc c)))
  /\ (forall t,
        exists c', NewClient key (opts ++ [WithTimeout t]) = Ok c'
          /\ Client.hc c' =
               {| apiKey := key; baseURL := baseURL (Client.hc c);
                  timeout := t; client := client (Client.hc c) |})
  /\ (forall transport,
        exists c', NewClient key (opts ++ [WithHTTPClient transport]) = Ok c'
          /\ Client.hc c' =
               {| apiKey := key; baseURL := baseURL (Client.hc c);
                  timeout := timeout (Client.hc c); client := transport |}).
Proof.
  intros Hkey. unfold NewClient.
  rewrite (proj2 (String.eqb_neq key "") Hkey).
  intros Hres. injection Hres as <-. simpl.
  split; [intros ->; split; [reflexivity | split; reflexivity] | ].
  split; [ | split]; intros x; rewrite fold_left_app; simpl;
    eexists; (split; [reflexivity | reflexivity]).
Qed.

Lemma NewClient_options_sample :
  exists c' : Client.t,
    NewClient (rt := ServiceDouble.runtime) "sk_test"
      ([WithBaseURL "https://custom.api.com/v1"; WithTimeout 5]
         ++ [WithTimeout 60000000000])
    = Ok c'
    /\ timeout (Client.hc c') = 60000000000
    /\ baseURL (Client.hc c') = "https://custom.api.com/v1".
Proof.
  assert (Hkey : "sk_test" <> "") by discriminate.
  destruct (NewClient_options (rt := ServiceDouble.runtime) "sk_test"
              [WithBaseURL "https://custom.api.com/v1"; WithTimeout 5]
              _ Hkey eq_refl)
    as (_ & _ & Htimeout & _).
  destruct (Htimeout 60000000000) as (c' & Hres & Hhc).
  exists c'. split; [exact Hres | ].
  rewrite Hhc. split; reflexivity.
Defined.

(** ** Helper lemmas on the tail of the services *)

Section decode_reply_parts.
Context {lib : GoLib} {T : Type} {target : JSONTarget T}.

Lemma decode_reply_trace
    (reply : list Request * result (gmap string json) SDKError) :
  (decode_reply (T := T) reply).1 = reply.1.
Proof. destruct reply as [sent [data | err]]; reflexivity. Qed.

Lemma decode_reply_Ok_inv
    (reply : list Request * result (gmap string json) SDKError) (v : T) :
  (decode_reply reply).2 = Ok v ->
  exists (data : gmap string json) (b : string),
    reply.2 = Ok data /\ json_Marshal data = Ok b /\ json_Unmarshal b = Ok v.
Proof.
  destruct reply as [sent [data | err]]; simpl; [ | discriminate].
  unfold unmarshalTo.
  destruct (json_Marshal data) as [b | e1] eqn:Hm; [ | discriminate].
  destruct (json_Unmarshal b) as [r | e2] eqn:Hu; [ | discriminate].
  intros Hres. injection Hres as <-. exists data, b. auto.
Qed.




End decode_reply_parts.

(** ** Properties of the services *)

(** X12: an identifier that [strings.TrimSpace] reduces to the empty string
    stops each of the three services before the transport core is called:
    nothing is sent, and the error is the plain "userID is required" of
    [Retrieve] and [List], "subscriptionID is required" of [Cancel]. *)
Theorem services_reject_blank_id
    {lib : GoLib} {rt : GoRuntime}
    {sub_target : JSONTarget Subscription.t}
    {list_target : JSONTarget (PaginatedList SubscriptionHistoryItem.t)}
    {cancel_target : JSONTarget SubscriptionCancel}
    (s : SubscriptionService) (id : string)
    (listOpts : option ListOptions.t) (cancelOpts : option CancelOptions.t) :
  strings_TrimSpace id = "" ->
  Retrieve s id = ([], Err (errorString "userID is required"))
  /\ List s id listOpts = ([], Err (errorString "userID is required"))
  /\ Cancel s id cancelOpts
     = ([], Err (errorString "subscriptionID is required")).
Proof.
  intros Hblank. unfold Retrieve, List, Cancel. rewrite Hblank.
  split; [reflexivity | split; reflexivity].
Qed.

Lemma services_reject_blank_id_spaces :
  strings_TrimSpace (GoRuntime := ServiceDouble.runtime) "   " = ""
  /\ Retrieve (lib := Double.lib) (rt := ServiceDouble.runtime)
       (target := ServiceDouble.subscription_target) svc_refusing "   "
     = ([], Err (errorString "userID is required"))
  /\ Cancel (lib := Double.lib) (rt := ServiceDouble.runtime)
       (target := Double.cancel_target) svc_refusing "   " None
     = ([], Err (errorString "subscriptionID is required")).
Proof.
  split; [reflexivity | ].
  destruct (services_reject_blank_id (lib := Double.lib)
              (rt := ServiceDouble.runtime)
              (sub_target := ServiceDouble.subscription_target)
              (list_target := ServiceDouble.history_target)
              (cancel_target := Double.cancel_target)
              svc_refusing "   " None None eq_refl)
    as (Hr & _ & Hc).
  split; [exact Hr | exact Hc].
Defined.



(** X14: the request [Cancel] sends is a POST to
    [/subscription/<id>/cancel] under the base URL, whose body is the JSON
    text of the one-entry map [cancel_at_period_end]; the flag is the
    negation of [CancelNow], hence true when no options are given. *)
Theorem Cancel_request
    {lib : GoLib} {rt : GoRuntime} {target : JSONTarget SubscriptionCancel}
    (s : SubscriptionService) (subscriptionID : string)
    (opts : option CancelOptions.t) (req : Request) :
  (Cancel s subscriptionID opts).1 = [req] ->
  exists (flag : bool) (b : string),
    Method req = "POST"
    /\ URL req = baseURL (http s) +:+ "/subscription/" +:+ subscriptionID
                 +:+ "/cancel"
    /\ json_Marshal {[ "cancel_at_period_end" := JBool flag ]} = Ok b
    /\ ReqBody req = Some b
    /\ (opts = None -> flag = true)
    /\ (forall o, opts = Some o -> flag = negb (CancelOptions.CancelNow o)).
Proof.
  unfold Cancel.
  destruct (String.eqb (strings_TrimSpace subscriptionID) "");
    [intros Hsent; discriminate Hsent | ].
  rewrite decode_reply_trace. intros Hsent.
  destruct (request_sent_shape _ _ _ _ req Hsent)
    as (Hm & _ & _ & Hurl & Hbody).
  simpl in Hurl, Hbody. destruct Hbody as (b & Hmarshal & Hb).
  eexists _, b. split; [exact Hm | ]. split; [exact Hurl | ].
  split; [exact Hmarshal | ]. split; [exact Hb | ].
  split.
  - intros ->. reflexivity.
  - intros o ->. reflexivity.
Qed.

Lemma Cancel_request_default :
  exists (req : Request) (flag : bool),
    (Cancel (lib := ServiceDouble.lib) (rt := ServiceDouble.runtime)
       (target := Double.cancel_target) svc_cancelling "sub_uuid" None).1
    = [req]
    /\ URL req = "http://127.0.0.1:8080/subscription/sub_uuid/cancel"
    /\ flag = true.
Proof.
  eexists.
  destruct (Cancel_request (lib := ServiceDouble.lib)
              (rt := ServiceDouble.runtime) (target := Double.cancel_target)
              svc_cancelling "sub_uuid" None _ eq_refl)
    as (flag & b & _ & Hurl & _ & _ & Hflag & _).
  exists flag. split; [reflexivity | ].
  split; [exact Hurl | exact (Hflag eq_refl)].
Defined.

(** X15: behind every subscription returned by [Retrieve] there is one
    exchange: the identifier was not blank, one GET without body went to
    [/subscription/<id>] under the base URL, the answer had a status in
    [200, 300) and a body decoding to a JSON object, and the subscription
    is what [json.Unmarshal] makes of the text [json.Marshal] gives for
    that object. *)
Theorem Retrieve_Ok_inv
    {lib : GoLib} {rt : GoRuntime} {target : JSONTarget Subscription.t}
    (s : SubscriptionService) (userID : string) (sub : Subscription.t) :
  (Retrieve s userID).2 = Ok sub ->
  exists (req : Request) (resp : Response) (body b : string)
         (data : gmap string json),
    strings_TrimSpace userID <> ""
    /\ (Retrieve s userID).1 = [req]
    /\ Method req = "GET"
    /\ URL req = baseURL (http s) +:+ "/subscription/" +:+ userID
    /\ ReqBody req = None
    /\ client (http s) (timeout (http s)) req = Responded resp
    /\ is_2xx (StatusCode resp)
    /\ RespBody resp = ReadAll_ok body
    /\ json_decode body = Some (JObject data)
    /\ json_Marshal data = Ok b
    /\ json_Unmarshal b = Ok sub.
Proof.
  unfold Retrieve.
  destruct (String.eqb_spec (strings_TrimSpace userID) "") as [Hblank | Hid];
    [intros Hres; discriminate Hres | ].
  rewrite decode_reply_trace. intros Hres.
  destruct (decode_reply_Ok_inv _ sub Hres) as (data & b & Hok & Hm & Hu).
  destruct (request_Ok_sent _ _ _ _ data Hok) as [req Hsent].
  destruct (request_sent_shape _ _ _ _ req Hsent)
    as (Hmethod & _ & _ & Hurl & Hbody).
  simpl in Hurl, Hbody.
  rewrite (request_after_send _ _ _ _ req Hsent) in Hok.
  destruct (client (http s) (timeout (http s)) req)
    as [resp | err [ | | ]] eqn:Hdo; try discriminate Hok.
  destruct (handleResponse_Ok_inv resp data Hok) as (body & Hb & Hst & Hdec).
  exists req, resp, body, b, data.
  split; [exact Hid | ]. split; [exact Hsent | ]. split; [exact Hmethod | ].
  split; [exact Hurl | ]. split; [exact Hbody | ]. split; [exact Hdo | ].
  split; [exact Hst | ]. split; [exact Hb | ]. split; [exact Hdec | ].
  split; [exact Hm | exact Hu].
Qed.

Lemma Retrieve_Ok_inv_sub_1 :
  (Retrieve (lib := ServiceDouble.lib) (rt := ServiceDouble.runtime)
     (target := ServiceDouble.subscription_target) svc_retrieving "user_123").2
  = Ok ServiceDouble.sub_1
  /\ exists req : Request,
       (Retrieve (lib := ServiceDouble.lib) (rt := ServiceDouble.runtime)
          (target := ServiceDouble.subscription_target)
          svc_retrieving "user_123").1 = [req]
       /\ URL req = "http://127.0.0.1:8080/subscription/user_123".
Proof.
  split; [reflexivity | ].
  destruct (Retrieve_Ok_inv (lib := ServiceDouble.lib)
              (rt := ServiceDouble.runtime)
              (target := ServiceDouble.subscription_target)
              svc_retrieving "user_123" ServiceDouble.sub_1 eq_refl)
    as (req & resp & body & b & data & _ & Hsent & _ & Hurl & _).
  exists req. split; [exact Hsent | exact Hurl].
Defined.


